(** * vistela backend: video record store and blob store client

    A shallow embedding of [backend/app/db/db_service.py] and
    [backend/app/services/s3_service.py].

    The two Python modules are straight-line request/response code around
    two external libraries (psycopg2 talking to PostgreSQL, boto3 talking
    to S3).  The embedding therefore has three layers:

    - a small state-and-exception monad with Python's [try]/[except]/
      [finally];
    - a model of the outside world: the committed rows of table [videos],
      the UTC clock, the S3 bucket, counters of open connections and
      cursors, the trace of every driver call, and a fault plan that can
      make any driver call raise any exception, and the order in which
      the database returns rows that share their [created_at];
    - the functions of the two modules, written statement by statement
      over that monad. *)

From Stdlib Require Import ZArith Lia Ascii.
From stdpp Require Import base strings list sorting.

Local Open Scope Z_scope.
Local Open Scope string_scope.
Local Open Scope list_scope.

(** ** Python exceptions *)

Inductive ExnClass :=
| ValueError
| AttributeError
| UnboundLocalError
| IntegrityError      (* psycopg2.IntegrityError *)
| OperationalError    (* psycopg2.OperationalError *)
| DataError           (* psycopg2.DataError *)
| InterfaceError      (* psycopg2.InterfaceError *)
| ProgrammingError    (* psycopg2.ProgrammingError *)
| DatabaseError       (* any other psycopg2.Error *)
| ClientError         (* botocore.exceptions.ClientError *)
| BotoCoreError       (* botocore.exceptions.BotoCoreError *)
| OtherException.     (* any other subclass of Exception *)

(** [d.get(k, default)] on a dict with string keys. *)
Fixpoint get_or {V} (d : list (string * V)) (k : string) (default : V) : V :=
  match d with
  | [] => default
  | (k', v) :: d => if String.eqb k' k then v else get_or d k default
  end.

(** The parsed error response a [ClientError] carries as [e.response]: a
    dict of dicts of strings, such as
    [{'Error': {'Code': ..., 'Message': ...}}]. *)
Definition Response : Type := list (string * list (string * string)).

(** An exception: its class, [str(e)] and, read only from a
    [ClientError], [e.response]. *)
Record Exn := MkExn {
  exn_class : ExnClass;
  exn_msg : string;
  exn_response : Response
}.

(** An exception that carries no response. *)
Definition mkExn (c : ExnClass) (msg : string) : Exn := MkExn c msg [].

(** [isinstance(e, psycopg2.Error)] *)
Definition is_psycopg2_Error (e : Exn) : bool :=
  match exn_class e with
  | IntegrityError | OperationalError | DataError | InterfaceError
  | ProgrammingError | DatabaseError => true
  | _ => false
  end.

Definition is_class (c : ExnClass) (e : Exn) : bool :=
  match c, exn_class e with
  | ValueError, ValueError | AttributeError, AttributeError
  | UnboundLocalError, UnboundLocalError | IntegrityError, IntegrityError
  | OperationalError, OperationalError | DataError, DataError
  | InterfaceError, InterfaceError | ProgrammingError, ProgrammingError
  | DatabaseError, DatabaseError | ClientError, ClientError
  | BotoCoreError, BotoCoreError | OtherException, OtherException => true
  | _, _ => false
  end.

(** ** The monad: state passing with exceptions *)

Inductive Result (A : Type) :=
| Ok (a : A)
| Raise (e : Exn).
Arguments Ok {A} a.
Arguments Raise {A} e.

Definition M (St A : Type) : Type := St -> Result A * St.

Definition ret {St A} (a : A) : M St A := fun s => (Ok a, s).

Definition bind {St A B} (m : M St A) (k : A -> M St B) : M St B :=
  fun s => match m s with
           | (Ok a, s') => k a s'
           | (Raise e, s') => (Raise e, s')
           end.

Definition raise {St A} (e : Exn) : M St A := fun s => (Raise e, s).

Definition get {St} : M St St := fun s => (Ok s, s).
Definition modify {St} (f : St -> St) : M St unit := fun s => (Ok tt, f s).

Declare Scope py_scope.
Delimit Scope py_scope with py.
Notation "'let*' x ':=' c 'in' k" := (bind c (fun x => k))
  (at level 10, x name, c at level 100, k at level 200) : py_scope.
Notation "c ';;;' k" := (bind c (fun _ => k))
  (at level 100, k at level 200, right associativity) : py_scope.
Local Open Scope py_scope.

(** [try: body  except <clauses>] -- [handler e] is [Some h] for the first
    clause that matches [e]; an exception raised by [h] propagates. *)
Definition try_except {St A} (body : M St A)
  (handler : Exn -> option (M St A)) : M St A :=
  fun s => match body s with
           | (Ok a, s') => (Ok a, s')
           | (Raise e, s') =>
               match handler e with
               | Some h => h s'
               | None => (Raise e, s')
               end
           end.

(** [try: body  finally: fin] -- [fin] runs on every exit of [body]; when
    [fin] raises, its exception replaces the outcome of [body]. *)
Definition try_finally {St A} (body : M St A) (fin : M St unit) : M St A :=
  fun s => match body s with
           | (r, s') =>
               match fin s' with
               | (Ok _, s'') => (r, s'')
               | (Raise e, s'') => (Raise e, s'')
               end
           end.

(** Truthiness of an [Optional[str]]: [None] and the empty string are
    falsy. *)
Definition truthy (o : option string) : bool :=
  match o with
  | None => false
  | Some s => negb (String.eqb s EmptyString)
  end.

(** ** Data model *)

(** One row of table [videos]; timestamps are microseconds since the
    epoch, the resolution of both [datetime] and SQL [TIMESTAMP]. *)
Record VideoRecord := mkVideo {
  video_id : string;
  user_id : string;
  filename : string;
  s3_key : string;
  status : string;
  created_at : Z;
  updated_at : Z
}.

(** The values a row dictionary holds and the dictionary itself, in
    column order. *)
Inductive PyVal :=
| VStr (s : string)
| VTime (t : Z).

Definition PyDict := list (string * PyVal).

Fixpoint dict_get (k : string) (d : PyDict) : option PyVal :=
  match d with
  | [] => None
  | (k', v) :: d' => if String.eqb k k' then Some v else dict_get k d'
  end.

(** Truthiness of a dict: empty is falsy. *)
Definition dict_truthy (d : PyDict) : bool :=
  match d with [] => false | _ => true end.

(** The row a [RealDictCursor] yields for
    [SELECT video_id, user_id, filename, s3_key, status, created_at,
    updated_at]. *)
Definition row_dict (r : VideoRecord) : PyDict :=
  [ ("video_id", VStr (video_id r));
    ("user_id", VStr (user_id r));
    ("filename", VStr (filename r));
    ("s3_key", VStr (s3_key r));
    ("status", VStr (status r));
    ("created_at", VTime (created_at r));
    ("updated_at", VTime (updated_at r)) ].

(** ** SQL statements of the module *)

(** One [" AND col = %s"] fragment with its parameter. *)
Inductive Cond :=
| UserIdEq (u : string)
| StatusEq (s : string).

Inductive Statement :=
| InsertVideo (r : VideoRecord)
    (* INSERT INTO videos (video_id, ..., updated_at) VALUES (%s, ...) *)
| SelectById (id : string)
    (* SELECT ... FROM videos WHERE video_id = %s *)
| SelectWhere (conds : list Cond) (limit : Z).
    (* SELECT ... FROM videos WHERE 1=1 {AND col = %s}
       ORDER BY created_at DESC LIMIT %s *)

(** ** The outside world *)

Inductive Event :=
| EvConnect (host user password database : option string) (port : string)
| EvCursor
| EvExecute (q : Statement)
| EvCommit
| EvRollback
| EvCursorClose
| EvConnClose
| EvS3Client (access_key secret : option string) (region : string)
| EvS3Upload (bucket : option string) (key : string) (body : list Byte.byte).

Inductive LogLevel := INFO | ERROR.

Record World := mkWorld {
  videos : list VideoRecord;        (* committed rows, in insertion order *)
  open_conns : nat;                 (* connections opened and not closed *)
  open_cursors : nat;               (* cursors opened and not closed *)
  clock : nat -> Z;                 (* successive readings of the UTC clock *)
  ticks : nat;                      (* readings taken so far *)
  fault_plan : nat -> Event -> option Exn;
                                    (* what the n-th driver call raises *)
  trace : list Event;               (* driver calls made so far, oldest first *)
  s3_objects : list (string * list Byte.byte);  (* key, content; latest first *)
  logs : list (LogLevel * string);
  tie_break : nat -> Statement -> VideoRecord -> Z
    (* where the plan the database picks for the statement it receives as
       its n-th driver call puts a row among rows with equal sort key *)
}.

Definition set_videos (v : list VideoRecord) (w : World) : World :=
  mkWorld v (open_conns w) (open_cursors w) (clock w) (ticks w)
          (fault_plan w) (trace w) (s3_objects w) (logs w) (tie_break w).
Definition set_open_conns (n : nat) (w : World) : World :=
  mkWorld (videos w) n (open_cursors w) (clock w) (ticks w)
          (fault_plan w) (trace w) (s3_objects w) (logs w) (tie_break w).
Definition set_open_cursors (n : nat) (w : World) : World :=
  mkWorld (videos w) (open_conns w) n (clock w) (ticks w)
          (fault_plan w) (trace w) (s3_objects w) (logs w) (tie_break w).
Definition set_ticks (n : nat) (w : World) : World :=
  mkWorld (videos w) (open_conns w) (open_cursors w) (clock w) n
          (fault_plan w) (trace w) (s3_objects w) (logs w) (tie_break w).
Definition set_trace (t : list Event) (w : World) : World :=
  mkWorld (videos w) (open_conns w) (open_cursors w) (clock w) (ticks w)
          (fault_plan w) t (s3_objects w) (logs w) (tie_break w).
Definition set_s3_objects (o : list (string * list Byte.byte)) (w : World)
  : World :=
  mkWorld (videos w) (open_conns w) (open_cursors w) (clock w) (ticks w)
          (fault_plan w) (trace w) o (logs w) (tie_break w).
Definition set_logs (l : list (LogLevel * string)) (w : World) : World :=
  mkWorld (videos w) (open_conns w) (open_cursors w) (clock w) (ticks w)
          (fault_plan w) (trace w) (s3_objects w) l (tie_break w).

(** Every call into psycopg2 or boto3 goes through [driver_call]: it is
    recorded in the trace and raises what the fault plan says for that
    call at that position.  The plan stands for everything the libraries
    can fail on that the module does not decide itself: an unreachable
    host, a lost connection, a parameter the driver cannot adapt, a
    missing bucket. *)
Definition driver_call (ev : Event) : M World unit :=
  fun w =>
    let w' := set_trace (trace w ++ [ev]) w in
    match fault_plan w (length (trace w)) ev with
    | Some e => (Raise e, w')
    | None => (Ok tt, w')
    end.

(** [datetime.utcnow()] *)
Definition utcnow : M World Z :=
  fun w => (Ok (clock w (ticks w)), set_ticks (S (ticks w)) w).

(** [logger.info] / [logger.error] *)
Definition log (lvl : LogLevel) (msg : string) : M World unit :=
  modify (fun w => set_logs (logs w ++ [(lvl, msg)]) w).

(** ** psycopg2 and the database behind it

    A connection and a cursor are Python objects that only the calling
    function's locals refer to, so they are carried by value.  A
    connection runs one transaction: rows inserted through it are pending
    until [commit] appends them to the committed table; [rollback] and
    [close] drop them.  The table declares [video_id VARCHAR PRIMARY KEY]
    (CREATE TABLE comment in [insert_video]), so an INSERT whose key is
    already visible raises [IntegrityError].  [LIMIT] takes a bigint that
    is not negative; any other value is refused with [DataError].  Among
    rows with equal [created_at] the order of a result is the plan's, not
    the statement's.  Rows
    are fetched as dictionaries, the way the module's [RealDictCursor]
    hands them out. *)

Record Connection := mkConn {
  conn_closed : bool;
  conn_pending : list VideoRecord
}.

Record Cursor := mkCursor {
  cur_closed : bool;
  cur_rows : option (list VideoRecord)   (* result set still to fetch *)
}.

Definition cond_holds (c : Cond) (r : VideoRecord) : Prop :=
  match c with
  | UserIdEq u => user_id r = u
  | StatusEq s => status r = s
  end.

Global Instance cond_holds_dec c r : Decision (cond_holds c r).
Proof. destruct c; simpl; apply _. Defined.

(** The WHERE clause [1=1 AND c1 AND c2 ...]. *)
Definition row_matches (conds : list Cond) (r : VideoRecord) : Prop :=
  Forall (fun c => cond_holds c r) conds.

Global Instance row_matches_dec conds r : Decision (row_matches conds r).
Proof. unfold row_matches. apply _. Defined.

(** [ORDER BY created_at DESC]: a row may precede another when it is at
    least as recent. *)
Definition created_desc (r1 r2 : VideoRecord) : Prop :=
  created_at r2 <= created_at r1.

Global Instance created_desc_dec r1 r2 : Decision (created_desc r1 r2).
Proof. unfold created_desc. apply _. Defined.

Definition max_bigint : Z := 9223372036854775807.

(** [ORDER BY created_at DESC] as a plan carries it out: more recent rows
    first, and rows with equal [created_at] by the rank the plan gives
    them.  SQL leaves the order of such rows open and it can change from
    one statement to the next, so the rank is the world's to choose. *)
Definition plan_order (rank : VideoRecord -> Z) (r1 r2 : VideoRecord)
  : Prop :=
  created_at r2 < created_at r1 \/
  (created_at r1 = created_at r2 /\ rank r1 <= rank r2).

Global Instance plan_order_dec rank r1 r2 : Decision (plan_order rank r1 r2).
Proof. unfold plan_order. apply _. Defined.

(** The characters the database's messages need. *)
Definition newline : string := String "010"%char EmptyString.
Definition dquote : string := String "034"%char EmptyString.

Module psycopg2.

(** [psycopg2.connect(host=..., user=..., password=..., database=...,
    port=...)] *)
Definition connect (host user password database : option string)
  (port : string) : M World Connection :=
  driver_call (EvConnect host user password database port) ;;;
  modify (fun w => set_open_conns (S (open_conns w)) w) ;;;
  ret (mkConn false []).

(** [conn.cursor(...)] *)
Definition cursor (c : Connection) : M World Cursor :=
  if conn_closed c then
    raise (mkExn InterfaceError "connection already closed")
  else
    driver_call EvCursor ;;;
    modify (fun w => set_open_cursors (S (open_cursors w)) w) ;;;
    ret (mkCursor false None).

(** The rows a statement on connection [c] sees. *)
Definition visible (c : Connection) (w : World) : list VideoRecord :=
  videos w ++ conn_pending c.

(** The error for a key that is already there. *)
Definition unique_violation (id : string) : Exn :=
  mkExn IntegrityError
    ("duplicate key value violates unique constraint " +:+ dquote +:+
     "videos_pkey" +:+ dquote +:+ newline +:+
     "DETAIL:  Key (video_id)=(" +:+ id +:+ ") already exists." +:+ newline).

(** What the database answers to a statement; the connection and the
    cursor come back updated. *)
Definition run (c : Connection) (q : Statement)
  : M World (Connection * Cursor) :=
  let* w := get in
  match q with
  | InsertVideo r =>
      if decide (video_id r ∈ video_id <$> visible c w) then
        raise (unique_violation (video_id r))
      else
        ret (mkConn false (conn_pending c ++ [r]), mkCursor false None)
  | SelectById id =>
      ret (c, mkCursor false
                (Some (filter (fun r => video_id r = id) (visible c w))))
  | SelectWhere conds limit =>
      if (limit <? 0)%Z then
        raise (mkExn DataError ("LIMIT must not be negative" +:+ newline))
      else if (max_bigint <? limit)%Z then
        raise (mkExn DataError ("bigint out of range" +:+ newline))
      else
        ret (c, mkCursor false
                  (Some (take (Z.to_nat limit)
                           (merge_sort
                              (plan_order (tie_break w (length (trace w)) q))
                              (filter (row_matches conds) (visible c w))))))
  end.

(** [cursor.execute(query, params)] *)
Definition execute (c : Connection) (cur : Cursor) (q : Statement)
  : M World (Connection * Cursor) :=
  if cur_closed cur then
    raise (mkExn InterfaceError "cursor already closed")
  else if conn_closed c then
    raise (mkExn InterfaceError "connection already closed")
  else
    driver_call (EvExecute q) ;;;
    run c q.

(** [cursor.fetchone()] on a [RealDictCursor] *)
Definition fetchone (cur : Cursor) : M World (option PyDict * Cursor) :=
  match cur_rows cur with
  | None => raise (mkExn ProgrammingError "no results to fetch")
  | Some [] => ret (None, cur)
  | Some (r :: rs) =>
      ret (Some (row_dict r), mkCursor (cur_closed cur) (Some rs))
  end.

(** [cursor.fetchall()] on a [RealDictCursor] *)
Definition fetchall (cur : Cursor) : M World (list PyDict * Cursor) :=
  match cur_rows cur with
  | None => raise (mkExn ProgrammingError "no results to fetch")
  | Some rs => ret (row_dict <$> rs, mkCursor (cur_closed cur) (Some []))
  end.

(** [conn.commit()] *)
Definition commit (c : Connection) : M World Connection :=
  if conn_closed c then
    raise (mkExn InterfaceError "connection already closed")
  else
    driver_call EvCommit ;;;
    modify (fun w => set_videos (videos w ++ conn_pending c) w) ;;;
    ret (mkConn false []).

(** [conn.rollback()] *)
Definition rollback (c : Connection) : M World Connection :=
  if conn_closed c then
    raise (mkExn InterfaceError "connection already closed")
  else
    driver_call EvRollback ;;;
    ret (mkConn false []).

(** [cursor.close()] *)
Definition cursor_close (cur : Cursor) : M World Cursor :=
  driver_call EvCursorClose ;;;
  (if cur_closed cur then ret tt
   else modify (fun w => set_open_cursors (pred (open_cursors w)) w)) ;;;
  ret (mkCursor true None).

(** [conn.close()]: an open transaction is discarded. *)
Definition close (c : Connection) : M World Connection :=
  driver_call EvConnClose ;;;
  (if conn_closed c then ret tt
   else modify (fun w => set_open_conns (pred (open_conns w)) w)) ;;;
  ret (mkConn true []).

End psycopg2.

(** ** Local variables of a record-store function

    The handlers and the [finally] block of each function read [conn] and
    [cursor] after the body may have stopped half way, so the two locals
    are part of the state: [conn] starts as [None], [cursor] starts
    unbound. *)

Record Frame := mkFrame {
  conn : option Connection;
  cursor : option Cursor
}.

Definition Local : Type := Frame * World.

Definition liftW {A} (m : M World A) : M Local A :=
  fun s => match m (snd s) with (r, w') => (r, (fst s, w')) end.

(** Run a function body in a fresh frame. *)
Definition with_frame {A} (m : M Local A) : M World A :=
  fun w => match m (mkFrame None None, w) with (r, s) => (r, snd s) end.

Definition assign_conn (c : Connection) : M Local unit :=
  modify (fun s => (mkFrame (Some c) (cursor (fst s)), snd s)).

Definition assign_cursor (cur : Cursor) : M Local unit :=
  modify (fun s => (mkFrame (conn (fst s)) (Some cur), snd s)).

(** Reading the local [cursor]. *)
Definition load_cursor : M Local Cursor :=
  let* s := get in
  match cursor (fst s) with
  | Some cur => ret cur
  | None =>
      raise (mkExn UnboundLocalError
               "cannot access local variable 'cursor' where it is not associated with a value")
  end.

(** [conn.<attr>(...)]: on [None] the attribute lookup fails. *)
Definition with_conn {A} (attr : string) (k : Connection -> M Local A)
  : M Local A :=
  let* s := get in
  match conn (fst s) with
  | Some c => k c
  | None =>
      raise (mkExn AttributeError
               ("'NoneType' object has no attribute '" ++ attr ++ "'"))
  end.

(** [if conn: ...] -- a connection object is always truthy. *)
Definition if_conn (m : M Local unit) : M Local unit :=
  let* s := get in
  match conn (fst s) with
  | Some _ => m
  | None => ret tt
  end.

Definition conn_cursor : M Local Cursor :=
  with_conn "cursor" (fun c => liftW (psycopg2.cursor c)).

Definition conn_commit : M Local unit :=
  with_conn "commit" (fun c =>
    let* c' := liftW (psycopg2.commit c) in assign_conn c').

Definition conn_rollback : M Local unit :=
  with_conn "rollback" (fun c =>
    let* c' := liftW (psycopg2.rollback c) in assign_conn c').

Definition conn_close : M Local unit :=
  with_conn "close" (fun c =>
    let* c' := liftW (psycopg2.close c) in assign_conn c').

(** [cursor.execute(...)]: the cursor works on the connection it was
    made from, which is the one [conn] holds. *)
Definition cursor_execute (q : Statement) : M Local unit :=
  let* cur := load_cursor in
  with_conn "execute" (fun c =>
    let* cc := liftW (psycopg2.execute c cur q) in
    assign_conn (fst cc) ;;;
    assign_cursor (snd cc)).

Definition cursor_fetchone : M Local (option PyDict) :=
  let* cur := load_cursor in
  let* rc := liftW (psycopg2.fetchone cur) in
  assign_cursor (snd rc) ;;;
  ret (fst rc).

Definition cursor_fetchall : M Local (list PyDict) :=
  let* cur := load_cursor in
  let* rc := liftW (psycopg2.fetchall cur) in
  assign_cursor (snd rc) ;;;
  ret (fst rc).

Definition cursor_close : M Local unit :=
  let* cur := load_cursor in
  let* cur' := liftW (psycopg2.cursor_close cur) in
  assign_cursor cur'.

Definition log_info (msg : string) : M Local unit := liftW (log INFO msg).
Definition log_error (msg : string) : M Local unit := liftW (log ERROR msg).

(** ** backend/app/db/db_service.py *)

Module db_service.
Section db_service.

(** [os.environ] as the module finds it at import time, after
    [load_dotenv]. *)
Variable environ : string -> option string.

Definition DB_HOST : option string := environ "DB_HOST".
Definition DB_USER : option string := environ "DB_USER".
Definition DB_PASS : option string := environ "DB_PASS".
Definition DB_NAME : option string := environ "DB_NAME".
Definition DB_PORT : string := default "5432" (environ "DB_PORT").

Definition get_db_connection : M World Connection :=
  if negb (forallb truthy [DB_HOST; DB_USER; DB_PASS; DB_NAME]) then
    raise (mkExn ValueError
             "DB_HOST, DB_USER, DB_PASS, and DB_NAME must be set in environment variables")
  else
    try_except
      (psycopg2.connect DB_HOST DB_USER DB_PASS DB_NAME DB_PORT)
      (fun e =>
         if is_class OperationalError e then
           Some (log ERROR ("Failed to connect to database: " ++ exn_msg e) ;;;
                 raise e)
         else None).

Definition insert_video
  (video_id user_id filename s3_key status : string) : M World bool :=
  with_frame (* conn = None *)
    (try_finally
       (try_except
          (let* c := liftW get_db_connection in
           assign_conn c ;;;
           let* cur := conn_cursor in
           assign_cursor cur ;;;
           let* current_time := liftW utcnow in
           cursor_execute
             (InsertVideo (mkVideo video_id user_id filename s3_key status
                             current_time current_time)) ;;;
           conn_commit ;;;
           log_info ("Successfully inserted video " ++ video_id ++
                     " for user " ++ user_id) ;;;
           ret true)
          (fun e =>
             if is_class IntegrityError e then
               Some (conn_rollback ;;;
                     log_error ("Integrity error inserting video " ++
                                video_id ++ ": " ++ exn_msg e) ;;;
                     raise e)
             else if is_psycopg2_Error e then
               Some (if_conn conn_rollback ;;;
                     log_error ("Database error inserting video " ++
                                video_id ++ ": " ++ exn_msg e) ;;;
                     raise e)
             else
               Some (if_conn conn_rollback ;;;
                     log_error ("Unexpected error inserting video " ++
                                video_id ++ ": " ++ exn_msg e) ;;;
                     raise e)))
       (if_conn (cursor_close ;;; conn_close))).

Definition get_video (video_id : string) : M World (option PyDict) :=
  with_frame (* conn = None *)
    (try_finally
       (try_except
          (let* c := liftW get_db_connection in
           assign_conn c ;;;
           let* cur := conn_cursor in
           assign_cursor cur ;;;
           cursor_execute (SelectById video_id) ;;;
           let* result := cursor_fetchone in
           match result with
           | Some row => if dict_truthy row then ret (Some row) else ret None
           | None => ret None
           end)
          (fun e =>
             if is_psycopg2_Error e then
               Some (log_error ("Database error getting video " ++
                                video_id ++ ": " ++ exn_msg e) ;;;
                     raise e)
             else
               Some (log_error ("Unexpected error getting video " ++
                                video_id ++ ": " ++ exn_msg e) ;;;
                     raise e)))
       (if_conn (cursor_close ;;; conn_close))).

Definition list_videos (user_id status : option string) (limit : Z)
  : M World (list PyDict) :=
  with_frame (* conn = None *)
    (try_finally
       (try_except
          (let* c := liftW get_db_connection in
           assign_conn c ;;;
           let* cur := conn_cursor in
           assign_cursor cur ;;;
           let params := [] in
           let params :=
             match user_id with
             | Some u => if truthy user_id then params ++ [UserIdEq u]
                         else params
             | None => params
             end in
           let params :=
             match status with
             | Some s => if truthy status then params ++ [StatusEq s]
                         else params
             | None => params
             end in
           cursor_execute (SelectWhere params limit) ;;;
           let* results := cursor_fetchall in
           ret results)
          (fun e =>
             if is_psycopg2_Error e then
               Some (log_error ("Database error listing videos: " ++
                                exn_msg e) ;;;
                     raise e)
             else
               Some (log_error ("Unexpected error listing videos: " ++
                                exn_msg e) ;;;
                     raise e)))
       (if_conn (cursor_close ;;; conn_close))).

End db_service.
End db_service.

(** ** Files, [str.strip] and boto3 *)

(** A binary file object: its bytes, the read position, whether it was
    closed. *)
Record BinaryIO := mkFile {
  fdata : list Byte.byte;
  fpos : nat;
  fclosed : bool
}.

(** [file.seek(pos)] *)
Definition file_seek {St} (f : BinaryIO) (pos : nat) : M St BinaryIO :=
  if fclosed f then raise (mkExn ValueError "seek of closed file")
  else ret (mkFile (fdata f) pos false).

(** [s.lstrip(ch)], [s.rstrip(ch)] and [s.strip(ch)] for a one-character
    [ch].  Strings are byte strings here; ["/"] is a single byte that
    occurs in no multi-byte UTF-8 sequence, so stripping bytes and
    stripping code points agree. *)
Fixpoint lstrip (ch : ascii) (s : string) : string :=
  match s with
  | EmptyString => EmptyString
  | String c s' => if Ascii.eqb c ch then lstrip ch s' else s
  end.

Fixpoint rstrip (ch : ascii) (s : string) : string :=
  match s with
  | EmptyString => EmptyString
  | String c s' =>
      match rstrip ch s' with
      | EmptyString =>
          if Ascii.eqb c ch then EmptyString else String c EmptyString
      | t => String c t
      end
  end.

Definition strip (ch : ascii) (s : string) : string :=
  rstrip ch (lstrip ch s).

Definition slash : ascii := "/"%char.

Module boto3.

(** [boto3.client('s3', aws_access_key_id=..., aws_secret_access_key=...,
    region_name=..., config=boto3_config)] *)
Definition client (access_key secret : option string) (region : string)
  : M World unit :=
  driver_call (EvS3Client access_key secret region).

(** [s3_client.upload_fileobj(file, bucket, key)]: the bytes from the
    read position on are stored under [key], replacing what was there. *)
Definition upload_fileobj (f : BinaryIO) (bucket : option string)
  (key : string) : M World unit :=
  let body := drop (fpos f) (fdata f) in
  driver_call (EvS3Upload bucket key body) ;;;
  modify (fun w => set_s3_objects ((key, body) :: s3_objects w) w).

End boto3.

(** ** backend/app/services/s3_service.py *)

Module s3_service.
Section s3_service.

Variable environ : string -> option string.

Definition AWS_ACCESS_KEY_ID : option string := environ "AWS_ACCESS_KEY_ID".
Definition AWS_SECRET_ACCESS_KEY : option string :=
  environ "AWS_SECRET_ACCESS_KEY".
Definition AWS_REGION : string := default "us-east-1" (environ "AWS_REGION").
Definition S3_BUCKET_NAME : option string := environ "S3_BUCKET_NAME".

Definition get_s3_client : M World unit :=
  if negb (truthy AWS_ACCESS_KEY_ID) || negb (truthy AWS_SECRET_ACCESS_KEY)
  then
    raise (mkExn ValueError
             "AWS_ACCESS_KEY_ID and AWS_SECRET_ACCESS_KEY must be set in environment variables")
  else if negb (truthy S3_BUCKET_NAME) then
    raise (mkExn ValueError
             "S3_BUCKET_NAME must be set in environment variables")
  else
    boto3.client AWS_ACCESS_KEY_ID AWS_SECRET_ACCESS_KEY AWS_REGION.

(** The object key [upload_to_s3] builds from its arguments. *)
Definition object_key (filename : string) (folder : option string)
  : string :=
  match folder with
  | Some f =>
      if truthy folder then
        let folder := strip slash f in
        folder ++ "/" ++ filename
      else filename
  | None => filename
  end.

Definition upload_to_s3 (file : BinaryIO) (filename : string)
  (folder : option string) : M World string :=
  try_except
    (let* s3_client := get_s3_client in
     let object_key := object_key filename folder in
     let* file := file_seek file 0 in
     boto3.upload_fileobj file S3_BUCKET_NAME object_key ;;;
     log INFO ("Successfully uploaded " ++ filename ++ " to S3 bucket " ++
               default "None" S3_BUCKET_NAME ++ " as " ++ object_key) ;;;
     ret object_key)
    (fun e =>
       if is_class ValueError e then
         Some (log ERROR ("Configuration error: " ++ exn_msg e) ;;; raise e)
       else if is_class ClientError e then
         let error_code :=
           get_or (get_or (exn_response e) "Error" []) "Code" "Unknown" in
         let error_message :=
           get_or (get_or (exn_response e) "Error" []) "Message" (exn_msg e)
         in
         Some (log ERROR ("S3 ClientError during upload: " ++ error_code ++
                          " - " ++ error_message) ;;;
               raise e)
       else if is_class BotoCoreError e then
         Some (log ERROR ("BotoCoreError during upload: " ++ exn_msg e) ;;;
               raise e)
       else
         Some (log ERROR ("Unexpected error during S3 upload: " ++
                          exn_msg e) ;;;
               raise e)).

End s3_service.
End s3_service.

(** ** backend/app/main.py

    Importing the module builds the application, uploads
    [test_video.mp4] from the working directory, prints the key and then
    registers the health route.  The importing process has a standard
    output, a count of open files and the outside world. *)

Record Process := mkProcess {
  stdout : list string;
  open_files : nat;
  world : World
}.

Definition liftP {A} (m : M World A) : M Process A :=
  fun p => match m (world p) with
           | (r, w') => (r, mkProcess (stdout p) (open_files p) w')
           end.

(** [print(a, b)]: the two values separated by a space. *)
Definition print2 (a b : string) : M Process unit :=
  modify (fun p => mkProcess (stdout p ++ [a +:+ " " +:+ b])
                             (open_files p) (world p)).

(** A route of the application: one that FastAPI installs itself when
    the application is built, whose handler is FastAPI's own and serves
    the schema or a documentation page, or one the module registers,
    with its method, its path and its handler. *)
Inductive Route :=
| BuiltinRoute (path : string)
| APIRoute (method path : string) (endpoint : unit -> PyDict).

Definition route_path (r : Route) : string :=
  match r with
  | BuiltinRoute path => path
  | APIRoute _ path _ => path
  end.

Record FastAPI := mkApp {
  app_title : string;
  app_description : string;
  app_version : string;
  app_routes : list Route
}.

(** [FastAPI(title=..., description=..., version=...)]: with the URLs
    left at their defaults the constructor installs the schema route and
    the three documentation routes, in this order. *)
Definition new_FastAPI (title description version : string) : FastAPI :=
  mkApp title description version
        [BuiltinRoute "/openapi.json"; BuiltinRoute "/docs";
         BuiltinRoute "/docs/oauth2-redirect"; BuiltinRoute "/redoc"].

(** [@app.get(path)] applied to a handler. *)
Definition app_get (app : FastAPI) (path : string) (h : unit -> PyDict)
  : FastAPI :=
  mkApp (app_title app) (app_description app) (app_version app)
        (app_routes app ++ [APIRoute "GET" path h]).

Module main.
Section main.

Variable environ : string -> option string.

(** The files of the working directory. *)
Variable fs : string -> option (list Byte.byte).

(** [open(name, "rb")] *)
Definition open_rb (name : string) : M Process BinaryIO :=
  match fs name with
  | Some data =>
      modify (fun p => mkProcess (stdout p) (S (open_files p)) (world p)) ;;;
      ret (mkFile data 0 false)
  | None =>
      raise (mkExn OtherException
               ("[Errno 2] No such file or directory: '" +:+ name +:+ "'"))
  end.

(** Leaving a [with open(...)] block: the file is closed. *)
Definition file_exit : M Process unit :=
  modify (fun p => mkProcess (stdout p) (pred (open_files p)) (world p)).

Definition health_check (_ : unit) : PyDict := [("status", VStr "ok")].

(** The module body, top to bottom. *)
Definition import_module : M Process FastAPI :=
  let app := new_FastAPI "Vistela Backend" "FastAPI backend application"
                         "1.0.0" in
  (let* file := open_rb "test_video.mp4" in
   try_finally
     (let* s3_key :=
        liftP (s3_service.upload_to_s3 environ file "test_video.mp4" None) in
      print2 "uploaded to s3" s3_key)
     file_exit) ;;;
  ret (app_get app "/health" health_check).

End main.
End main.

(** * Vocabulary of the properties *)

(** ** Assumptions on the environment *)

(** No driver call fails. *)
Definition no_faults (w : World) : Prop :=
  forall n ev, fault_plan w n ev = None.

(** The four required database settings are present. *)
Definition db_configured (environ : string -> option string) : Prop :=
  forallb truthy [db_service.DB_HOST environ; db_service.DB_USER environ;
                  db_service.DB_PASS environ; db_service.DB_NAME environ]
  = true.

(** One of them is unset. *)
Definition db_setting_unset (environ : string -> option string) : Prop :=
  None ∈ [db_service.DB_HOST environ; db_service.DB_USER environ;
          db_service.DB_PASS environ; db_service.DB_NAME environ].

(** The three required object-store settings are present. *)
Definition s3_configured (environ : string -> option string) : Prop :=
  truthy (s3_service.AWS_ACCESS_KEY_ID environ) = true /\
  truthy (s3_service.AWS_SECRET_ACCESS_KEY environ) = true /\
  truthy (s3_service.S3_BUCKET_NAME environ) = true.

(** One of them is unset. *)
Definition s3_setting_unset (environ : string -> option string) : Prop :=
  None ∈ [s3_service.AWS_ACCESS_KEY_ID environ;
          s3_service.AWS_SECRET_ACCESS_KEY environ;
          s3_service.S3_BUCKET_NAME environ].

(** ** Worlds reached by the record store *)

(** The world after more driver calls and log lines. *)
Definition extend (evs : list Event) (msgs : list (LogLevel * string))
  (w : World) : World :=
  set_logs (logs w ++ msgs) (set_trace (trace w ++ evs) w).

Definition ev_connect (environ : string -> option string) : Event :=
  EvConnect (db_service.DB_HOST environ) (db_service.DB_USER environ)
            (db_service.DB_PASS environ) (db_service.DB_NAME environ)
            (db_service.DB_PORT environ).

(** The row [insert_video] writes when called in world [w]: both
    timestamps are the reading the clock gives at that call. *)
Definition new_row (w : World) (id u f k st : string) : VideoRecord :=
  mkVideo id u f k st (clock w (ticks w)) (clock w (ticks w)).

(** The conditions [list_videos] appends for its two optional filters. *)
Definition filters (u s : option string) : list Cond :=
  match u with
  | Some x => if truthy u then [UserIdEq x] else []
  | None => []
  end ++
  match s with
  | Some x => if truthy s then [StatusEq x] else []
  | None => []
  end.

(** What [get_video] answers: the first row with that key, if any. *)
Definition lookup_row (id : string) (w : World) : option PyDict :=
  match filter (fun r => video_id r = id) (videos w) with
  | [] => None
  | r :: _ => Some (row_dict r)
  end.

(** The rows [list_videos] selects. *)
Definition selected (u s : option string) (limit : Z) (w : World)
  : list VideoRecord :=
  take (Z.to_nat limit)
    (merge_sort
       (plan_order (tie_break w (length (trace w) + 3)
                      (SelectWhere (filters u s) limit)))
       (filter (row_matches (filters u s)) (videos w))).

(** The seven columns of a complete record. *)
Definition columns : list string :=
  ["video_id"; "user_id"; "filename"; "s3_key"; "status"; "created_at";
   "updated_at"].

(** ** The filter contract in the words of the specification

    An absent filter imposes no constraint, a given one is an equality,
    and the two are combined with AND. *)
Definition matches_filters (u s : option string) (r : VideoRecord) : Prop :=
  from_option (fun x => user_id r = x) True u /\
  from_option (fun x => status r = x) True s.

Global Instance matches_filters_dec u s r : Decision (matches_filters u s r).
Proof. unfold matches_filters. destruct u, s; simpl; apply _. Defined.

(** ** A run of inserts for one user *)

(** [(video_id, filename, s3_key, status)] of each record to insert. *)
Definition InsertArgs : Type := string * string * string * string.

Definition arg_id (a : InsertArgs) : string := fst (fst (fst a)).

Fixpoint insert_all (environ : string -> option string) (u : string)
  (rs : list InsertArgs) : M World unit :=
  match rs with
  | [] => ret tt
  | (id, f, k, st) :: rs' =>
      db_service.insert_video environ id u f k st ;;;
      insert_all environ u rs'
  end.

(** ** Folders and slashes *)

(** The string of [n] slashes. *)
Fixpoint slashes (n : nat) : string :=
  match n with
  | O => EmptyString
  | S n' => String slash (slashes n')
  end.

(** [t] is [f] without its leading and trailing slashes. *)
Definition stripped_of_slashes (f t : string) : Prop :=
  (exists n m, f = slashes n +:+ t +:+ slashes m) /\
  (forall t', t <> String slash t') /\
  (forall t', t <> t' +:+ String slash EmptyString).

(** ** Concrete environments and worlds *)

Definition example_environ (k : string) : option string :=
  if String.eqb k "DB_HOST" then Some "db.internal"
  else if String.eqb k "DB_USER" then Some "vistela"
  else if String.eqb k "DB_PASS" then Some "secret"
  else if String.eqb k "DB_NAME" then Some "videos"
  else if String.eqb k "AWS_ACCESS_KEY_ID" then Some "AKIA"
  else if String.eqb k "AWS_SECRET_ACCESS_KEY" then Some "shh"
  else if String.eqb k "S3_BUCKET_NAME" then Some "vistela-videos"
  else None.

Definition empty_environ (k : string) : option string := None.

(** A world with the given committed rows, nothing open, and a clock
    that advances by one microsecond per reading. *)
Definition quiet_world (vs : list VideoRecord)
  (plan : nat -> Event -> option Exn) : World :=
  mkWorld vs 0 0 (fun n => 1700000000000000 + Z.of_nat n) 0 plan [] [] []
          (fun _ _ _ => 0).

Definition no_plan (n : nat) (ev : Event) : option Exn := None.

(** The plan in which [conn.cursor()] fails and nothing else does. *)
Definition cursor_fails (n : nat) (ev : Event) : option Exn :=
  match ev with
  | EvCursor => Some (mkExn OperationalError "server closed the connection")
  | _ => None
  end.

Definition alice_row : VideoRecord :=
  mkVideo "v1" "alice" "a.mp4" "uploads/a.mp4" "completed"
          1690000000000000 1690000000000000.

Definition example_file : BinaryIO := mkFile [] 0 false.

(** ** A capped, ordered list

    [rows] are the first [k] of the records of [pool], most recent
    first: the first [k] entries of a list that holds the records of
    [pool], each as often as [pool] does, in descending [created_at]
    order.  Which of two records with equal [created_at] comes first is
    left open. *)
Definition most_recent (k : nat) (pool rows : list VideoRecord) : Prop :=
  exists sorted,
    sorted ≡ₚ pool /\
    StronglySorted created_desc sorted /\
    rows = take k sorted.

(** A filter as [list_videos] takes it: the empty string counts as
    absent. *)
Definition effective_filter (o : option string) : option string :=
  if truthy o then o else None.

(** A table in which two of alice's records were created at the same
    time, and a world whose plans put the second of them first. *)
Definition tied_row : VideoRecord :=
  mkVideo "v2" "alice" "b.mp4" "uploads/b.mp4" "pending"
          1690000000000000 1690000000000000.

Definition bob_row : VideoRecord :=
  mkVideo "v3" "bob" "c.mp4" "uploads/c.mp4" "completed"
          1690000000000005 1690000000000005.

Definition older_row : VideoRecord :=
  mkVideo "v4" "alice" "d.mp4" "uploads/d.mp4" "completed"
          1680000000000000 1680000000000000.

Definition example_table : list VideoRecord :=
  [alice_row; tied_row; bob_row; older_row].

Definition second_first (n : nat) (q : Statement) (r : VideoRecord) : Z :=
  if String.eqb (video_id r) "v1" then 1 else 0.

Definition tied_world : World :=
  mkWorld example_table 0 0 (fun n => 1700000000000000 + Z.of_nat n) 0
          no_plan [] [] [] second_first.

(** ** The cap sentence of the specification as it is written

    For every limit [k], [list] returns a sequence of length at most [k]
    in descending [created_at] order. *)
Definition list_cap_as_written : Prop :=
  forall environ w (u s : option string) (k : Z),
    db_configured environ -> no_faults w ->
    exists rows w',
      db_service.list_videos environ u s k w = (Ok (row_dict <$> rows), w')
      /\ Z.of_nat (length rows) <= k
      /\ StronglySorted created_desc rows.

(** ** Two sentences of the specification as they are written

    The filter sentence: [list(user_id=u, status=s)] returns exactly the
    records matching the given filters (on a table small enough for the
    default cap of 100 not to matter). *)
Definition list_filters_exact_as_written : Prop :=
  forall environ w (u s : option string),
    db_configured environ -> no_faults w ->
    (length (videos w) <= 100)%nat ->
    exists rows w',
      db_service.list_videos environ u s 100 w = (Ok (row_dict <$> rows), w')
      /\ forall r, r ∈ rows <-> r ∈ videos w /\ matches_filters u s r.

(** The key sentence: a given folder is stripped and joined, no folder
    gives the file name. *)
Definition object_key_as_written : Prop :=
  forall (filename : string) (folder : option string),
    s3_service.object_key filename folder =
    match folder with
    | Some f => strip slash f +:+ "/" +:+ filename
    | None => filename
    end.

(** ** Failing before the first driver call

    The call raises [ValueError] and leaves the trace, the table, the
    bucket and the open connections as they were. *)
Definition fails_before_any_call {A} (m : M World A) (w : World) : Prop :=
  exists e w',
    m w = (Raise e, w') /\
    exn_class e = ValueError /\
    trace w' = trace w /\
    videos w' = videos w /\
    s3_objects w' = s3_objects w /\
    open_conns w' = open_conns w.

(** ** Releasing the connection

    [conn.cursor()] and the two [close()] calls never fail; every other
    driver call may. *)
Definition release_calls_succeed (w : World) : Prop :=
  forall n,
    fault_plan w n EvCursor = None /\
    fault_plan w n EvCursorClose = None /\
    fault_plan w n EvConnClose = None.

(** The call leaves as many connections and cursors open as it found. *)
Definition releases {A} (m : M World A) (w : World) : Prop :=
  open_conns (snd (m w)) = open_conns w /\
  open_cursors (snd (m w)) = open_cursors w.

(** ** Leaking the connection

    The call raises [UnboundLocalError] from its [finally] block and
    leaves one more connection open than it found. *)
Definition leaks_connection {A} (m : M World A) (w : World) : Prop :=
  exists e w',
    m w = (Raise e, w') /\
    exn_class e = UnboundLocalError /\
    open_conns w' = S (open_conns w) /\
    EvConnClose ∉ drop (length (trace w)) (trace w').

(** ** Fault plans that fail one kind of call

    [fails_on P e] makes every driver call that satisfies [P] raise [e]
    and lets every other call through. *)
Definition fails_on (P : Event -> bool) (e : Exn) (n : nat) (ev : Event)
  : option Exn :=
  if P ev then Some e else None.

Definition is_connect (ev : Event) : bool :=
  match ev with EvConnect _ _ _ _ _ => true | _ => false end.
Definition is_execute (ev : Event) : bool :=
  match ev with EvExecute _ => true | _ => false end.
Definition is_commit (ev : Event) : bool :=
  match ev with EvCommit => true | _ => false end.
Definition is_rollback (ev : Event) : bool :=
  match ev with EvRollback => true | _ => false end.
Definition is_cursor_close (ev : Event) : bool :=
  match ev with EvCursorClose => true | _ => false end.
Definition is_upload (ev : Event) : bool :=
  match ev with EvS3Upload _ _ _ => true | _ => false end.

(** The driver calls an operation added to the trace. *)
Definition new_calls {A} (m : M World A) (w : World) : list Event :=
  drop (length (trace w)) (trace (snd (m w))).

(** The key column holds no value twice. *)
Definition keys_unique (w : World) : Prop := NoDup (video_id <$> videos w).

Definition example_exn : Exn := mkExn OperationalError "connection reset".

Definition example_fs (name : string) : option (list Byte.byte) :=
  if String.eqb name "test_video.mp4" then Some [Byte.x00; Byte.x01]
  else None.

Definition empty_fs (name : string) : option (list Byte.byte) := None.

Definition fresh_process (w : World) : Process := mkProcess [] 0 w.

(** A [ClientError] as botocore builds it from an [AccessDenied] answer
    to [PutObject]. *)
Definition access_denied : Exn :=
  MkExn ClientError
        ("An error occurred (AccessDenied) when calling the PutObject " +:+
         "operation: Access Denied")
        [("Error", [("Code", "AccessDenied"); ("Message", "Access Denied")])].

(** The routes of an application that the module registered, each by
    its method, its path and its handler's answer. *)
Definition registered (app : FastAPI)
  : list (string * string * PyDict) :=
  omap (fun r => match r with
                 | BuiltinRoute _ => None
                 | APIRoute method path endpoint =>
                     Some (method, path, endpoint tt)
                 end) (app_routes app).

(** ** Raising cleanly

    The call raises [e] after exactly the driver calls [evs], with the
    table as it was and nothing left open. *)
Definition raises_with {A} (m : M World A) (w : World) (e : Exn)
  (evs : list Event) : Prop :=
  exists w',
    m w = (Raise e, w') /\
    trace w' = trace w ++ evs /\
    videos w' = videos w /\
    open_conns w' = open_conns w /\
    open_cursors w' = open_cursors w.

(** * Symbolic execution *)

(** Unfold the monad, the driver model and the record projections,
    leaving list and string functions and the exception tests folded. *)
Ltac py_unfold :=
  cbv beta iota zeta delta
    [bind ret raise get modify try_except try_finally liftW with_frame
     assign_conn assign_cursor load_cursor with_conn if_conn conn_cursor
     conn_commit conn_rollback conn_close cursor_execute cursor_fetchone
     cursor_fetchall cursor_close log_info log_error log utcnow driver_call
     psycopg2.connect psycopg2.cursor psycopg2.run psycopg2.execute
     psycopg2.fetchone psycopg2.fetchall psycopg2.commit psycopg2.rollback
     psycopg2.cursor_close psycopg2.close psycopg2.visible
     boto3.client boto3.upload_fileobj file_seek
     set_videos set_open_conns set_open_cursors set_ticks set_trace
     set_s3_objects set_logs extend new_row ev_connect
     videos open_conns open_cursors clock ticks fault_plan trace s3_objects
     logs tie_break conn cursor conn_closed conn_pending cur_closed cur_rows
     fdata fpos fclosed fst snd Nat.pred negb].

(** The same, deciding the exception tests on a known exception. *)
Ltac py_classify :=
  cbv beta iota delta [is_class is_psycopg2_Error exn_class mkExn
                       psycopg2.unique_violation].

(** Run along the path on which the fault plan [H] lets every call
    through. *)
Ltac py_run H := py_unfold; py_classify; rewrite ?H; py_unfold; py_classify.

(** Split on every fault the plan [fp] may hold and on every test the
    code makes. *)
Ltac py_paths fp :=
  repeat (match goal with
          | |- context [match fp ?n ?ev with _ => _ end] =>
              destruct (fp n ev)
          | |- context [decide ?P] => destruct (decide P)
          | |- context [is_class ?c ?e] => destruct (is_class c e)
          | |- context [is_psycopg2_Error ?e] =>
              destruct (is_psycopg2_Error e)
          end; py_unfold).

Ltac tidy_lists := rewrite ?app_nil_r, <- ?app_assoc; cbn [app].

(** * Lemmas on the model *)

Lemma dict_truthy_row r : dict_truthy (row_dict r) = true.
Proof. reflexivity. Qed.

Lemma row_dict_columns r : fst <$> row_dict r = columns.
Proof. reflexivity. Qed.

Global Instance row_dict_inj : Inj (=) (=) row_dict.
Proof.
  intros [i1 u1 f1 k1 s1 c1 m1] [i2 u2 f2 k2 s2 c2 m2] H.
  unfold row_dict in H; simpl in H. congruence.
Qed.

Global Instance created_desc_total : Total created_desc.
Proof. intros r1 r2. unfold created_desc. lia. Qed.

Global Instance created_desc_trans : Transitive created_desc.
Proof. intros r1 r2 r3. unfold created_desc. lia. Qed.

Lemma no_faults_extend evs msgs w : no_faults w -> no_faults (extend evs msgs w).
Proof. intros H n ev. apply H. Qed.

Lemma filter_key_absent id (vs : list VideoRecord) :
  id ∉ video_id <$> vs -> filter (fun r => video_id r = id) vs = [].
Proof.
  induction vs as [|r vs IH]; intros Hnot; [reflexivity|].
  rewrite fmap_cons, not_elem_of_cons in Hnot. destruct Hnot as [Hne Hrest].
  rewrite filter_cons_False by congruence. auto.
Qed.

Lemma filter_key_present id (vs : list VideoRecord) :
  id ∈ video_id <$> vs ->
  exists r rs, filter (fun r => video_id r = id) vs = r :: rs /\
               r ∈ vs /\ video_id r = id.
Proof.
  intros Hin. apply list_elem_of_fmap in Hin as (r & -> & Hr).
  assert (Hf : r ∈ filter (fun r0 => video_id r0 = video_id r) vs)
    by (apply list_elem_of_filter; auto).
  destruct (filter _ vs) as [|r0 rs] eqn:E.
  - apply elem_of_nil in Hf. contradiction.
  - assert (H0 : r0 ∈ filter (fun r1 => video_id r1 = video_id r) vs)
      by (rewrite E; left).
    apply list_elem_of_filter in H0 as [H1 H2]. eauto.
Qed.

Lemma StronglySorted_take {A} (R : relation A) n (l : list A) :
  StronglySorted R l -> StronglySorted R (take n l).
Proof.
  intros H. rewrite <- (take_drop n l) in H.
  eapply StronglySorted_app_1_l; eassumption.
Qed.

Global Instance plan_order_total rank : Total (plan_order rank).
Proof. intros r1 r2. unfold plan_order. lia. Qed.

Global Instance plan_order_trans rank : Transitive (plan_order rank).
Proof. intros r1 r2 r3. unfold plan_order. lia. Qed.

Lemma plan_order_created_desc rank r1 r2 :
  plan_order rank r1 r2 -> created_desc r1 r2.
Proof. unfold plan_order, created_desc. lia. Qed.

Lemma StronglySorted_weaken {A} (R1 R2 : relation A) (l : list A) :
  (forall x y, R1 x y -> R2 x y) ->
  StronglySorted R1 l -> StronglySorted R2 l.
Proof.
  intros Hsub Hs. induction Hs as [|x l Hl IH Hall]; constructor;
    [exact IH|].
  eapply Forall_impl; [exact Hall | apply Hsub].
Qed.

Lemma plan_sort_sorted rank (l : list VideoRecord) :
  StronglySorted created_desc (merge_sort (plan_order rank) l).
Proof.
  eapply StronglySorted_weaken; [apply plan_order_created_desc|].
  apply StronglySorted_merge_sort; apply _.
Qed.

Lemma selected_sorted u s k w : StronglySorted created_desc (selected u s k w).
Proof. apply StronglySorted_take, plan_sort_sorted. Qed.

Lemma selected_length u s k w :
  length (selected u s k w) =
  Nat.min (Z.to_nat k)
          (length (filter (row_matches (filters u s)) (videos w))).
Proof.
  unfold selected. rewrite length_take.
  f_equal. apply Permutation_length, merge_sort_Permutation.
Qed.

Lemma selected_most_recent u s k w :
  most_recent (Z.to_nat k) (filter (row_matches (filters u s)) (videos w))
    (selected u s k w).
Proof.
  unfold selected, most_recent.
  match goal with |- context [take _ ?l] => exists l end.
  split; [apply merge_sort_Permutation|].
  split; [apply plan_sort_sorted | reflexivity].
Qed.

(** Where no two rows share their [created_at], every plan sorts them
    the same way. *)
Lemma NoDup_fmap_eq {A B} (f : A -> B) (l : list A) x y :
  NoDup (f <$> l) -> x ∈ l -> y ∈ l -> f x = f y -> x = y.
Proof.
  induction l as [|a l IH]; intros Hnd Hx Hy Hf.
  - apply elem_of_nil in Hx. contradiction.
  - rewrite fmap_cons in Hnd. apply NoDup_cons in Hnd as [Hna Hnd].
    apply elem_of_cons in Hx as [->|Hx], Hy as [->|Hy].
    + reflexivity.
    + exfalso. apply Hna. rewrite Hf. apply list_elem_of_fmap_2. exact Hy.
    + exfalso. apply Hna. rewrite <- Hf. apply list_elem_of_fmap_2. exact Hx.
    + apply IH; assumption.
Qed.

Lemma plan_sort_unique rank1 rank2 (l : list VideoRecord) :
  NoDup (created_at <$> l) ->
  merge_sort (plan_order rank1) l = merge_sort (plan_order rank2) l.
Proof.
  intros Hnd.
  apply (StronglySorted_unique_strong created_desc).
  - intros x1 x2 H1 H2 H12 H21.
    rewrite merge_sort_Permutation in H1, H2.
    apply (NoDup_fmap_eq created_at l); try assumption.
    unfold created_desc in *. lia.
  - apply plan_sort_sorted.
  - apply plan_sort_sorted.
  - rewrite !merge_sort_Permutation. reflexivity.
Qed.

(** The conditions the code builds are the equalities of the filters
    that are neither absent nor empty. *)
Lemma row_matches_effective u s r :
  row_matches (filters u s) r <->
  matches_filters (effective_filter u) (effective_filter s) r.
Proof.
  unfold row_matches, filters, matches_filters, effective_filter.
  destruct u as [x|], s as [y|];
    repeat match goal with
           | |- context [truthy ?o] => destruct (truthy o)
           end;
    simpl; rewrite ?Forall_cons, ?Forall_nil; simpl; tauto.
Qed.

(** For filters that are absent or non-empty the conditions the code
    builds say what the specification says. *)
Lemma row_matches_filters u s r :
  u <> Some EmptyString -> s <> Some EmptyString ->
  row_matches (filters u s) r <-> matches_filters u s r.
Proof.
  intros Hu Hs. unfold row_matches, filters, matches_filters.
  assert (T : forall x, Some x <> Some EmptyString -> truthy (Some x) = true).
  { intros x Hx. simpl. destruct (String.eqb_spec x EmptyString); [|done].
    congruence. }
  destruct u as [x|], s as [y|]; rewrite ?T by assumption; simpl;
    rewrite ?Forall_cons, ?Forall_nil; simpl; tauto.
Qed.

(** ** The record store when the database answers *)

Section record_store.

Variable environ : string -> option string.
Hypothesis Hconf : db_configured environ.

Lemma insert_video_fresh w id u f k st :
  no_faults w ->
  id ∉ video_id <$> videos w ->
  db_service.insert_video environ id u f k st w =
  (Ok true,
   extend [ev_connect environ; EvCursor;
           EvExecute (InsertVideo (new_row w id u f k st));
           EvCommit; EvCursorClose; EvConnClose]
          [(INFO, "Successfully inserted video " +:+ id +:+
                  " for user " +:+ u)]
          (set_ticks (S (ticks w))
             (set_videos (videos w ++ [new_row w id u f k st]) w))).
Proof.
  intros Hn Hfresh.
  unfold db_service.insert_video, db_service.get_db_connection.
  rewrite Hconf.
  destruct w as [vs oc ocu clk tk fp tr s3 lg tb].
  unfold no_faults in Hn. cbn in Hn, Hfresh.
  py_run Hn. tidy_lists.
  rewrite decide_False by exact Hfresh.
  py_run Hn. tidy_lists. reflexivity.
Qed.

Lemma insert_video_dup w id u f k st :
  no_faults w ->
  id ∈ video_id <$> videos w ->
  db_service.insert_video environ id u f k st w =
  (Raise (psycopg2.unique_violation id),
   extend [ev_connect environ; EvCursor;
           EvExecute (InsertVideo (new_row w id u f k st));
           EvRollback; EvCursorClose; EvConnClose]
          [(ERROR, "Integrity error inserting video " +:+ id +:+ ": " +:+
                   exn_msg (psycopg2.unique_violation id))]
          (set_ticks (S (ticks w)) w)).
Proof.
  intros Hn Hdup.
  unfold db_service.insert_video, db_service.get_db_connection.
  rewrite Hconf.
  destruct w as [vs oc ocu clk tk fp tr s3 lg tb].
  unfold no_faults in Hn. cbn in Hn, Hdup.
  py_run Hn. tidy_lists.
  rewrite decide_True by exact Hdup.
  py_run Hn. tidy_lists. reflexivity.
Qed.

Lemma get_video_run w id :
  no_faults w ->
  db_service.get_video environ id w =
  (Ok (lookup_row id w),
   extend [ev_connect environ; EvCursor; EvExecute (SelectById id);
           EvCursorClose; EvConnClose] [] w).
Proof.
  intros Hn.
  unfold db_service.get_video, db_service.get_db_connection, lookup_row.
  rewrite Hconf.
  destruct w as [vs oc ocu clk tk fp tr s3 lg tb].
  unfold no_faults in Hn. cbn in Hn.
  py_run Hn. tidy_lists.
  destruct (filter _ vs) as [|r rs]; rewrite ?dict_truthy_row;
    py_run Hn; tidy_lists; reflexivity.
Qed.

Lemma list_videos_run w u s limit :
  no_faults w ->
  0 <= limit <= max_bigint ->
  db_service.list_videos environ u s limit w =
  (Ok (row_dict <$> selected u s limit w),
   extend [ev_connect environ; EvCursor;
           EvExecute (SelectWhere (filters u s) limit);
           EvCursorClose; EvConnClose] [] w).
Proof.
  intros Hn [Hlo Hhi].
  unfold db_service.list_videos, db_service.get_db_connection, selected,
    filters.
  rewrite Hconf.
  destruct w as [vs oc ocu clk tk fp tr s3 lg tb].
  unfold no_faults in Hn. cbn in Hn.
  assert (Hneg : (limit <? 0)%Z = false) by (apply Z.ltb_ge; lia).
  assert (Hbig : (max_bigint <? limit)%Z = false) by (apply Z.ltb_ge; lia).
  destruct u as [x|]; [destruct (truthy (Some x))|];
    (destruct s as [y|]; [destruct (truthy (Some y))|]);
    py_run Hn; rewrite Hneg, Hbig; py_run Hn; tidy_lists;
    rewrite !length_app; cbn [length]; rewrite <- ?Nat.add_assoc;
    cbn [Nat.add]; reflexivity.
Qed.

(** A negative cap is refused by the database: the call raises. *)
Lemma list_videos_negative_limit w u s limit :
  no_faults w ->
  limit < 0 ->
  exists w',
    db_service.list_videos environ u s limit w =
    (Raise (mkExn DataError ("LIMIT must not be negative" +:+ newline)), w').
Proof.
  intros Hn Hlt.
  unfold db_service.list_videos, db_service.get_db_connection.
  rewrite Hconf.
  destruct w as [vs oc ocu clk tk fp tr s3 lg tb].
  unfold no_faults in Hn. cbn in Hn.
  assert (Hneg : (limit <? 0)%Z = true) by (apply Z.ltb_lt; lia).
  py_run Hn; rewrite Hneg; py_run Hn. eauto.
Qed.

(** So is a cap beyond the bigint range. *)
Lemma list_videos_limit_too_big w u s limit :
  no_faults w ->
  max_bigint < limit ->
  exists w',
    db_service.list_videos environ u s limit w =
    (Raise (mkExn DataError ("bigint out of range" +:+ newline)), w').
Proof.
  intros Hn Hgt.
  unfold db_service.list_videos, db_service.get_db_connection.
  rewrite Hconf.
  destruct w as [vs oc ocu clk tk fp tr s3 lg tb].
  unfold no_faults in Hn. cbn in Hn.
  assert (Hneg : (limit <? 0)%Z = false)
    by (apply Z.ltb_ge; unfold max_bigint in Hgt; lia).
  assert (Hbig : (max_bigint <? limit)%Z = true) by (apply Z.ltb_lt; lia).
  py_run Hn; rewrite Hneg, Hbig; py_run Hn. eauto.
Qed.

(** A run of inserts with fresh, pairwise distinct keys succeeds and
    appends one row per insert, all owned by [u]. *)
Lemma insert_all_fresh u rs : forall w,
  no_faults w ->
  NoDup (arg_id <$> rs) ->
  (forall id, id ∈ arg_id <$> rs -> id ∉ video_id <$> videos w) ->
  exists w' new,
    insert_all environ u rs w = (Ok tt, w') /\
    no_faults w' /\
    videos w' = videos w ++ new /\
    length new = length rs /\
    Forall (fun r => user_id r = u) new.
Proof.
  induction rs as [|[[[id f] k] st] rs IH]; intros w Hn Hnd Hfresh.
  - exists w, []. rewrite app_nil_r. repeat split; auto.
  - rewrite fmap_cons in Hnd, Hfresh. cbn [arg_id fst] in Hnd, Hfresh.
    apply NoDup_cons in Hnd as [Hid Hnd].
    cbn [insert_all]. unfold bind at 1.
    rewrite insert_video_fresh by (auto; apply Hfresh; left).
    set (w1 := extend _ _ _).
    destruct (IH w1) as (w' & new & Hrun & Hn' & Hv & Hlen & Hall).
    + apply no_faults_extend. exact Hn.
    + exact Hnd.
    + intros id' Hin. subst w1. cbn.
      rewrite fmap_app, not_elem_of_app. split.
      * apply Hfresh. right. exact Hin.
      * cbn. rewrite list_elem_of_singleton. intros ->. contradiction.
    + exists w', (new_row w id u f k st :: new).
      rewrite Hrun. repeat split; auto.
      * rewrite Hv. subst w1. cbn. rewrite <- app_assoc. reflexivity.
      * cbn. lia.
Qed.

End record_store.

(** ** Stripping slashes *)

Lemma append_slash_not_empty t c : t +:+ String c EmptyString <> EmptyString.
Proof. destruct t; discriminate. Qed.

Lemma append_cons c a b : String c a +:+ b = String c (a +:+ b).
Proof. reflexivity. Qed.

Lemma lstrip_spec s :
  (exists n, s = slashes n +:+ lstrip slash s) /\
  (forall t', lstrip slash s <> String slash t').
Proof.
  induction s as [|c s [[n IHn] IHhead]]; cbn [lstrip].
  - split; [exists 0%nat; reflexivity | discriminate].
  - destruct (Ascii.eqb_spec c slash) as [->|Hne].
    + split; [|exact IHhead]. exists (S n). cbn [slashes].
      rewrite append_cons. f_equal. exact IHn.
    + split; [exists 0%nat; reflexivity|]. congruence.
Qed.

Lemma rstrip_spec s :
  (exists m, s = rstrip slash s +:+ slashes m) /\
  (forall t', rstrip slash s <> t' +:+ String slash EmptyString).
Proof.
  induction s as [|c s [[m IHm] IHtail]]; cbn [rstrip].
  - split; [exists 0%nat; reflexivity|].
    intros t' H. symmetry in H. exact (append_slash_not_empty _ _ H).
  - destruct (rstrip slash s) as [|d t] eqn:E.
    + change (s = slashes m) in IHm.
      destruct (Ascii.eqb_spec c slash) as [->|Hne].
      * split; [exists (S m);
                change (String slash s = String slash (slashes m));
                f_equal; exact IHm|].
        intros t' H. symmetry in H. exact (append_slash_not_empty _ _ H).
      * split; [exists m; change (String c s = String c (slashes m));
                f_equal; exact IHm|].
        intros [|a t'] H; [change (String c EmptyString =
                                   String slash EmptyString) in H; congruence|].
        rewrite append_cons in H. injection H as _ H. symmetry in H.
        exact (append_slash_not_empty _ _ H).
    + split; [exists m; rewrite append_cons; f_equal; exact IHm|].
      intros [|a t'] H; [discriminate H|].
      rewrite append_cons in H. injection H as _ H. exact (IHtail _ H).
Qed.

Lemma rstrip_keeps_head s :
  (forall t', s <> String slash t') ->
  forall t', rstrip slash s <> String slash t'.
Proof.
  intros Hs t'. destruct s as [|c s]; cbn [rstrip]; [discriminate|].
  assert (Hc : c <> slash) by (intros ->; exact (Hs s eq_refl)).
  destruct (rstrip slash s); [|congruence].
  destruct (Ascii.eqb_spec c slash); congruence.
Qed.

Lemma strip_spec f : stripped_of_slashes f (strip slash f).
Proof.
  unfold stripped_of_slashes, strip.
  destruct (lstrip_spec f) as [[n Hn] Hhead].
  destruct (rstrip_spec (lstrip slash f)) as [[m Hm] Htail].
  split; [|split].
  - exists n, m. rewrite <- Hm. exact Hn.
  - apply rstrip_keeps_head, Hhead.
  - exact Htail.
Qed.

(** ** Releasing what was opened *)

(** Where the [finally] blocks do their work: as long as the cursor can
    be made and the two [close()] calls go through, each operation
    closes what it opened, whatever else fails and whatever it returns
    or raises. *)
Ltac py_release fp H1 H2 H3 :=
  py_unfold;
  repeat first
    [ progress (rewrite ?H1, ?H2, ?H3, ?dict_truthy_row; py_unfold)
    | match goal with
      | |- context [match fp ?n ?ev with _ => _ end] => destruct (fp n ev)
      | |- context [decide ?P] => destruct (decide P)
      | |- context [match filter ?P ?l with _ => _ end] =>
          destruct (filter P l)
      | |- context [Z.ltb ?a ?b] => destruct (Z.ltb a b)
      | |- context [is_class ?c ?e] => destruct (is_class c e)
      | |- context [is_psycopg2_Error ?e] => destruct (is_psycopg2_Error e)
      end; py_unfold ].

Section release.

Variable environ : string -> option string.
Variable w : World.
Hypothesis Hrel : release_calls_succeed w.

Lemma insert_video_releases id u f k st :
  releases (db_service.insert_video environ id u f k st) w.
Proof.
  destruct w as [vs oc ocu clk tk fp tr s3 lg tb].
  assert (H1 : forall n, fp n EvCursor = None) by (intros n; apply (Hrel n)).
  assert (H2 : forall n, fp n EvCursorClose = None)
    by (intros n; apply (Hrel n)).
  assert (H3 : forall n, fp n EvConnClose = None)
    by (intros n; apply (Hrel n)).
  unfold releases, db_service.insert_video, db_service.get_db_connection.
  destruct (forallb truthy _); py_release fp H1 H2 H3; split; reflexivity.
Qed.

Lemma get_video_releases id :
  releases (db_service.get_video environ id) w.
Proof.
  destruct w as [vs oc ocu clk tk fp tr s3 lg tb].
  assert (H1 : forall n, fp n EvCursor = None) by (intros n; apply (Hrel n)).
  assert (H2 : forall n, fp n EvCursorClose = None)
    by (intros n; apply (Hrel n)).
  assert (H3 : forall n, fp n EvConnClose = None)
    by (intros n; apply (Hrel n)).
  unfold releases, db_service.get_video, db_service.get_db_connection.
  destruct (forallb truthy _); py_release fp H1 H2 H3; split; reflexivity.
Qed.

Lemma list_videos_releases u s k :
  releases (db_service.list_videos environ u s k) w.
Proof.
  destruct w as [vs oc ocu clk tk fp tr s3 lg tb].
  assert (H1 : forall n, fp n EvCursor = None) by (intros n; apply (Hrel n)).
  assert (H2 : forall n, fp n EvCursorClose = None)
    by (intros n; apply (Hrel n)).
  assert (H3 : forall n, fp n EvConnClose = None)
    by (intros n; apply (Hrel n)).
  unfold releases, db_service.list_videos, db_service.get_db_connection.
  destruct (forallb truthy _); py_release fp H1 H2 H3; split; reflexivity.
Qed.

End release.

(** * Properties of the specification, C1 to C10 *)

(** C1 -- round trip.  In a configured environment whose database
    answers, inserting a record whose [video_id] is not yet in the table
    returns [True], and [get_video] on that id then returns a row equal
    to the inserted one in [video_id], [user_id], [filename], [s3_key]
    and [status]; its [created_at] and [updated_at] are equal, and both
    are the reading the store took from the clock during the insert: the
    caller passes no timestamp. *)
Theorem insert_get_roundtrip environ w id u f k st :
  db_configured environ ->
  no_faults w ->
  id ∉ video_id <$> videos w ->
  exists w1 w2 row,
    db_service.insert_video environ id u f k st w = (Ok true, w1) /\
    db_service.get_video environ id w1 = (Ok (Some row), w2) /\
    dict_get "video_id" row = Some (VStr id) /\
    dict_get "user_id" row = Some (VStr u) /\
    dict_get "filename" row = Some (VStr f) /\
    dict_get "s3_key" row = Some (VStr k) /\
    dict_get "status" row = Some (VStr st) /\
    dict_get "created_at" row = dict_get "updated_at" row /\
    dict_get "created_at" row = Some (VTime (clock w (ticks w))).
Proof.
  intros Hc Hn Hfresh.
  eexists _, _, (row_dict (new_row w id u f k st)).
  split; [apply insert_video_fresh; assumption|].
  split; [|repeat split].
  rewrite get_video_run by first [assumption | intros n ev; apply Hn].
  unfold lookup_row. cbn [videos extend set_logs set_trace set_ticks set_videos].
  rewrite filter_app, filter_key_absent by assumption.
  rewrite filter_cons_True by reflexivity.
  reflexivity.
Qed.

Lemma insert_get_roundtrip_witness :
  db_configured example_environ /\
  no_faults (quiet_world [alice_row] no_plan) /\
  ("v2" ∉ video_id <$> videos (quiet_world [alice_row] no_plan)) /\
  exists w1 w2 row,
    db_service.insert_video example_environ "v2" "bob" "b.mp4" "uploads/b.mp4"
      "pending" (quiet_world [alice_row] no_plan) = (Ok true, w1) /\
    db_service.get_video example_environ "v2" w1 = (Ok (Some row), w2) /\
    dict_get "video_id" row = Some (VStr "v2") /\
    dict_get "user_id" row = Some (VStr "bob") /\
    dict_get "filename" row = Some (VStr "b.mp4") /\
    dict_get "s3_key" row = Some (VStr "uploads/b.mp4") /\
    dict_get "status" row = Some (VStr "pending") /\
    dict_get "created_at" row = dict_get "updated_at" row /\
    dict_get "created_at" row = Some (VTime 1700000000000000).
Proof.
  assert (Hc : db_configured example_environ) by reflexivity.
  assert (Hn : no_faults (quiet_world [alice_row] no_plan))
    by (intros n ev; reflexivity).
  assert (Hf : "v2" ∉ video_id <$> videos (quiet_world [alice_row] no_plan))
    by (cbn; rewrite list_elem_of_singleton; discriminate).
  exact (conj Hc (conj Hn (conj Hf
    (insert_get_roundtrip example_environ _ "v2" "bob" "b.mp4"
       "uploads/b.mp4" "pending" Hc Hn Hf)))).
Defined.

(** C2 -- uniqueness.  When a record with the given [video_id] is in the
    table, an insert with that id raises [psycopg2.IntegrityError]; the
    transaction is rolled back and never committed, the table is exactly
    what it was, the connection and the cursor are closed again, and
    [get_video] on that id answers what it answered before. *)
Theorem duplicate_insert_rejected environ w r u f k st :
  db_configured environ ->
  no_faults w ->
  r ∈ videos w ->
  exists e w',
    db_service.insert_video environ (video_id r) u f k st w = (Raise e, w') /\
    exn_class e = IntegrityError /\
    videos w' = videos w /\
    (exists evs, trace w' = trace w ++ evs /\
                 EvRollback ∈ evs /\ EvCommit ∉ evs) /\
    open_conns w' = open_conns w /\
    open_cursors w' = open_cursors w /\
    fst (db_service.get_video environ (video_id r) w') =
    fst (db_service.get_video environ (video_id r) w).
Proof.
  intros Hc Hn Hr.
  eexists _, _.
  split; [apply insert_video_dup; auto; apply list_elem_of_fmap_2, Hr|].
  repeat split.
  - eexists. split; [reflexivity|]. split.
    + do 3 right. left.
    + rewrite !not_elem_of_cons. repeat split; try discriminate.
      apply not_elem_of_nil.
  - rewrite !get_video_run by first [assumption | intros n ev; apply Hn].
    reflexivity.
Qed.

Lemma duplicate_insert_rejected_witness :
  db_configured example_environ /\
  no_faults (quiet_world [alice_row] no_plan) /\
  alice_row ∈ videos (quiet_world [alice_row] no_plan) /\
  exists e w',
    db_service.insert_video example_environ (video_id alice_row) "bob"
      "b.mp4" "uploads/b.mp4" "pending" (quiet_world [alice_row] no_plan)
    = (Raise e, w') /\
    exn_class e = IntegrityError /\
    videos w' = [alice_row] /\
    (exists evs, trace w' = [] ++ evs /\
                 EvRollback ∈ evs /\ EvCommit ∉ evs) /\
    open_conns w' = 0%nat /\
    open_cursors w' = 0%nat /\
    fst (db_service.get_video example_environ (video_id alice_row) w') =
    fst (db_service.get_video example_environ (video_id alice_row)
           (quiet_world [alice_row] no_plan)).
Proof.
  assert (Hc : db_configured example_environ) by reflexivity.
  assert (Hn : no_faults (quiet_world [alice_row] no_plan))
    by (intros n ev; reflexivity).
  assert (Hr : alice_row ∈ videos (quiet_world [alice_row] no_plan))
    by (cbn; left).
  exact (conj Hc (conj Hn (conj Hr
    (duplicate_insert_rejected example_environ _ alice_row "bob" "b.mp4"
       "uploads/b.mp4" "pending" Hc Hn Hr)))).
Defined.

(** C3 -- not found.  In a configured environment whose database
    answers, [get_video] on an id that is not in the table returns
    [None] and raises nothing; on an id that is in the table it returns
    the row of a stored record with that id, with all seven columns. *)
Theorem get_video_absent_or_complete environ w id :
  db_configured environ ->
  no_faults w ->
  (id ∉ video_id <$> videos w ->
   fst (db_service.get_video environ id w) = Ok None) /\
  (id ∈ video_id <$> videos w ->
   exists r, r ∈ videos w /\ video_id r = id /\
             fst (db_service.get_video environ id w) = Ok (Some (row_dict r))
             /\ fst <$> row_dict r = columns).
Proof.
  intros Hc Hn. rewrite get_video_run by assumption.
  unfold lookup_row. cbn [fst]. split.
  - intros Habs. rewrite filter_key_absent by assumption. reflexivity.
  - intros Hin. destruct (filter_key_present _ _ Hin) as (r & rs & E & Hr & Hid).
    exists r. rewrite E. auto using row_dict_columns.
Qed.

Lemma get_video_absent_or_complete_witness :
  db_configured example_environ /\
  no_faults (quiet_world [alice_row] no_plan) /\
  fst (db_service.get_video example_environ "nonexistent-id"
         (quiet_world [alice_row] no_plan)) = Ok None /\
  fst (db_service.get_video example_environ "v1"
         (quiet_world [alice_row] no_plan)) = Ok (Some (row_dict alice_row)).
Proof.
  assert (Hc : db_configured example_environ) by reflexivity.
  assert (Hn : no_faults (quiet_world [alice_row] no_plan))
    by (intros n ev; reflexivity).
  split; [exact Hc|]. split; [exact Hn|]. split.
  - apply (get_video_absent_or_complete example_environ _ "nonexistent-id"
             Hc Hn).
    cbn. rewrite list_elem_of_singleton. discriminate.
  - reflexivity.
Defined.

(** C4 -- ordering and cap.  As written the sentence fails: with the cap
    [2^63], one more than the database takes as a [LIMIT], [list_videos]
    raises the database's [DataError] where the sentence has it return
    rows. *)
Lemma list_cap_as_written_fails : ~ list_cap_as_written.
Proof.
  intros Hclaim.
  assert (Hc : db_configured example_environ) by reflexivity.
  assert (Hn : no_faults (quiet_world [alice_row] no_plan))
    by (intros n ev; reflexivity).
  destruct (Hclaim example_environ (quiet_world [alice_row] no_plan)
              None None (max_bigint + 1) Hc Hn) as (rows & w' & Hrun & _).
  destruct (list_videos_limit_too_big example_environ Hc
              (quiet_world [alice_row] no_plan) None None (max_bigint + 1) Hn)
    as (w'' & Hraise); [lia|].
  rewrite Hraise in Hrun. discriminate Hrun.
Qed.

(** C4, amended.  In a configured environment whose database answers,
    for every cap [k] with [0 <= k <= 2^63 - 1]:
    - from every table and with every pair of filters, [list_videos]
      returns the first [k] of the stored rows that match, most recent
      first: at most [k] rows, in descending [created_at] order, as many
      as the smaller of [k] and the number of matching rows, so a longer
      match is cut, not refused, and no row left out is more recent than
      a row returned;
    - after [N > k] inserts with fresh keys for one user [u],
      [list_videos(user_id=u, limit=k)] returns exactly [k] rows, the
      first [k] of the matching stored rows in descending [created_at]
      order. *)
Theorem list_videos_capped_and_ordered environ k :
  db_configured environ ->
  0 <= k <= max_bigint ->
  (forall w u s,
     no_faults w ->
     exists rows w',
       db_service.list_videos environ u s k w = (Ok (row_dict <$> rows), w')
       /\ most_recent (Z.to_nat k)
            (filter (row_matches (filters u s)) (videos w)) rows
       /\ Z.of_nat (length rows) <= k
       /\ StronglySorted created_desc rows
       /\ length rows =
          Nat.min (Z.to_nat k)
            (length (filter (row_matches (filters u s)) (videos w)))) /\
  (forall w0 u rs,
     no_faults w0 ->
     NoDup (arg_id <$> rs) ->
     (forall id, id ∈ arg_id <$> rs -> id ∉ video_id <$> videos w0) ->
     k < Z.of_nat (length rs) ->
     exists w1 rows w2,
       insert_all environ u rs w0 = (Ok tt, w1) /\
       db_service.list_videos environ (Some u) None k w1 =
       (Ok (row_dict <$> rows), w2) /\
       most_recent (Z.to_nat k)
         (filter (row_matches (filters (Some u) None)) (videos w1)) rows /\
       Z.of_nat (length rows) = k /\
       StronglySorted created_desc rows).
Proof.
  intros Hc Hk. split.
  - intros w u s Hn.
    exists (selected u s k w). eexists.
    split; [apply list_videos_run; assumption|].
    split; [apply selected_most_recent|].
    split; [|split; [apply selected_sorted | apply selected_length]].
    rewrite selected_length. lia.
  - intros w0 u rs Hn Hnd Hfresh Hlt.
    destruct (insert_all_fresh environ Hc u rs w0 Hn Hnd Hfresh)
      as (w1 & new & Hrun & Hn1 & Hv & Hlen & Hall).
    exists w1, (selected (Some u) None k w1). eexists.
    split; [exact Hrun|].
    split; [apply list_videos_run; assumption|].
    split; [apply selected_most_recent|].
    split; [|apply selected_sorted].
    rewrite selected_length, Hv, filter_app, length_app.
    assert (Hnew : filter (row_matches (filters (Some u) None)) new = new).
    { clear -Hall. induction Hall as [|r new Hr Hall IH]; [reflexivity|].
      rewrite filter_cons_True, IH; [reflexivity|].
      unfold row_matches, filters.
      destruct (truthy (Some u)); simpl; repeat constructor. exact Hr. }
    rewrite Hnew. lia.
Qed.

Lemma list_videos_capped_and_ordered_witness :
  db_configured example_environ /\
  0 <= 2 <= max_bigint /\
  no_faults tied_world /\
  NoDup (arg_id <$> [("n1", "x.mp4", "k1", "pending");
                     ("n2", "y.mp4", "k2", "completed");
                     ("n3", "z.mp4", "k3", "completed")]) /\
  (exists rows w',
     db_service.list_videos example_environ (Some "alice") None 2 tied_world
     = (Ok (row_dict <$> rows), w')
     /\ most_recent 2 [alice_row; tied_row; older_row] rows
     /\ length rows = 2%nat) /\
  (exists w1 rows w2,
     insert_all example_environ "alice"
       [("n1", "x.mp4", "k1", "pending"); ("n2", "y.mp4", "k2", "completed");
        ("n3", "z.mp4", "k3", "completed")] tied_world = (Ok tt, w1) /\
     db_service.list_videos example_environ (Some "alice") None 2 w1 =
     (Ok (row_dict <$> rows), w2) /\
     Z.of_nat (length rows) = 2 /\
     StronglySorted created_desc rows).
Proof.
  assert (Hc : db_configured example_environ) by reflexivity.
  assert (Hk : 0 <= 2 <= max_bigint) by (unfold max_bigint; lia).
  assert (Hn : no_faults tied_world) by (intros n ev; reflexivity).
  assert (Hnd : NoDup (arg_id <$> [("n1", "x.mp4", "k1", "pending");
                                   ("n2", "y.mp4", "k2", "completed");
                                   ("n3", "z.mp4", "k3", "completed")])).
  { cbn. repeat constructor; rewrite ?not_elem_of_cons, ?elem_of_nil;
      intuition discriminate. }
  destruct (list_videos_capped_and_ordered example_environ 2 Hc Hk)
    as [Hany Hrun].
  repeat split; try assumption; try lia.
  - destruct (Hany tied_world (Some "alice") None Hn)
      as (rows & w' & H1 & H2 & _ & _ & H5).
    exists rows, w'. split; [exact H1|]. split; [exact H2 | exact H5].
  - destruct (Hrun tied_world "alice"
                [("n1", "x.mp4", "k1", "pending");
                 ("n2", "y.mp4", "k2", "completed");
                 ("n3", "z.mp4", "k3", "completed")] Hn Hnd)
      as (w1 & rows & w2 & H1 & H2 & _ & H4 & H5).
    + intros id Hid. cbn in Hid |- *.
      rewrite !elem_of_cons, elem_of_nil in Hid.
      rewrite !not_elem_of_cons. rewrite elem_of_nil.
      intuition (subst; discriminate).
    + cbn. lia.
    + exists w1, rows, w2. auto.
Defined.

(** The same call, evaluated: alice's three rows are cut to the two most
    recent, which share their [created_at]; the plan of this world puts
    the one stored second first. *)
Example list_videos_tied_rows_run :
  fst (db_service.list_videos example_environ (Some "alice") None 2
         tied_world) = Ok [row_dict tied_row; row_dict alice_row].
Proof. vm_compute. reflexivity. Qed.

(** C5 -- filters.  As written the sentence fails: with the filter
    [user_id] given as the empty string, [list_videos] returns a record
    whose [user_id] is ["alice"]. *)
Lemma list_filters_exact_as_written_fails : ~ list_filters_exact_as_written.
Proof.
  intros Hclaim.
  assert (Hc : db_configured example_environ) by reflexivity.
  assert (Hn : no_faults (quiet_world [alice_row] no_plan))
    by (intros n ev; reflexivity).
  destruct (Hclaim example_environ (quiet_world [alice_row] no_plan)
              (Some EmptyString) None Hc Hn) as (rows & w' & Hrun & Hexact).
  { cbn. lia. }
  rewrite list_videos_run in Hrun
    by (assumption || (unfold max_bigint; lia)).
  injection Hrun as Hrows _.
  assert (Hin : alice_row ∈ rows).
  { apply (list_elem_of_fmap_inj_2 row_dict). rewrite <- Hrows. left. }
  apply Hexact in Hin as [_ [Huser _]].
  discriminate Huser.
Qed.

(** C5, amended.  In a configured environment whose database answers,
    for every cap [k] with [0 <= k <= 2^63 - 1] and every pair of
    filters, [list_videos] treats a filter that is absent or the empty
    string as no constraint and every other filter as an equality, the
    two combined with AND; it returns the first [k] of the stored
    records that satisfy them, most recent first: only such records, and
    all of them, each once, when no more than [k] match. *)
Theorem list_videos_filters environ w u s k :
  db_configured environ ->
  no_faults w ->
  0 <= k <= max_bigint ->
  exists rows w',
    db_service.list_videos environ u s k w = (Ok (row_dict <$> rows), w') /\
    most_recent (Z.to_nat k)
      (filter (matches_filters (effective_filter u) (effective_filter s))
         (videos w)) rows /\
    ((length (filter (matches_filters (effective_filter u)
                        (effective_filter s)) (videos w))
      <= Z.to_nat k)%nat ->
     rows ≡ₚ filter (matches_filters (effective_filter u)
                       (effective_filter s)) (videos w)) /\
    (forall r, r ∈ rows ->
               r ∈ videos w /\
               matches_filters (effective_filter u) (effective_filter s) r).
Proof.
  intros Hc Hn Hk.
  assert (Hf : filter (row_matches (filters u s)) (videos w) =
               filter (matches_filters (effective_filter u)
                         (effective_filter s)) (videos w)).
  { apply list_filter_iff. intros r. apply row_matches_effective. }
  exists (selected u s k w). eexists.
  split; [apply list_videos_run; assumption|].
  split; [rewrite <- Hf; apply selected_most_recent|].
  split.
  - intros Hle. unfold selected. rewrite take_ge.
    + rewrite merge_sort_Permutation. rewrite Hf. reflexivity.
    + erewrite Permutation_length by apply merge_sort_Permutation.
      rewrite Hf. exact Hle.
  - intros r Hr. unfold selected in Hr. apply subseteq_take in Hr.
    rewrite merge_sort_Permutation, Hf in Hr.
    apply list_elem_of_filter in Hr. tauto.
Qed.

Lemma list_videos_filters_witness :
  db_configured example_environ /\
  no_faults tied_world /\
  0 <= 100 <= max_bigint /\
  exists rows w',
    db_service.list_videos example_environ (Some "alice") (Some "completed")
      100 tied_world = (Ok (row_dict <$> rows), w') /\
    rows ≡ₚ [alice_row; older_row].
Proof.
  assert (Hc : db_configured example_environ) by reflexivity.
  assert (Hn : no_faults tied_world) by (intros n ev; reflexivity).
  assert (Hk : 0 <= 100 <= max_bigint) by (unfold max_bigint; lia).
  repeat (split; [assumption|]).
  destruct (list_videos_filters example_environ tied_world (Some "alice")
              (Some "completed") 100 Hc Hn Hk)
    as (rows & w' & Hrun & _ & Hall & _).
  exists rows, w'. split; [exact Hrun|].
  apply Hall. apply Nat.leb_le. vm_compute. reflexivity.
Defined.

(** C6 -- key construction.  As written the sentence fails: for the
    folder given as the empty string the key is the file name, not the
    stripped folder joined to it with a slash. *)
Lemma object_key_as_written_fails : ~ object_key_as_written.
Proof.
  intros Hclaim.
  specialize (Hclaim "a.mp4" (Some EmptyString)).
  vm_compute in Hclaim. discriminate Hclaim.
Qed.

(** C6, amended.  In a configured environment whose object store
    answers, [upload_to_s3] on an open file returns the key it stored the
    bytes under: for a non-empty folder, the folder without its leading
    and trailing slashes, a slash, and the file name; for no folder or
    the empty folder, the file name verbatim.  So folder ["/uploads/"]
    and name ["a.mp4"] give ["uploads/a.mp4"], and no folder gives
    ["a.mp4"]. *)
Theorem upload_key_construction environ file filename folder w :
  s3_configured environ ->
  no_faults w ->
  fclosed file = false ->
  exists key w',
    s3_service.upload_to_s3 environ file filename folder w = (Ok key, w') /\
    s3_objects w' = (key, fdata file) :: s3_objects w /\
    match folder with
    | Some f =>
        if decide (f = EmptyString) then key = filename
        else key = strip slash f +:+ "/" +:+ filename /\
             stripped_of_slashes f (strip slash f)
    | None => key = filename
    end /\
    s3_service.object_key "a.mp4" (Some "/uploads/") = "uploads/a.mp4" /\
    s3_service.object_key "a.mp4" None = "a.mp4".
Proof.
  intros (Ha & Hs & Hb) Hn Hopen.
  destruct w as [vs oc ocu clk tk fp tr s3 lg tb], file as [data pos closed].
  unfold no_faults in Hn. cbn in Hn, Hopen. subst closed.
  exists (s3_service.object_key filename folder). eexists.
  split; [|split; [|split; [|split; reflexivity]]].
  - unfold s3_service.upload_to_s3, s3_service.get_s3_client.
    rewrite Ha, Hs, Hb. cbn [negb orb].
    py_run Hn. cbn [drop]. reflexivity.
  - reflexivity.
  - destruct folder as [f|]; [|reflexivity].
    unfold s3_service.object_key. cbn [truthy].
    destruct (decide (f = EmptyString)) as [->|Hne]; [reflexivity|].
    destruct (String.eqb_spec f EmptyString) as [|_]; [contradiction|].
    cbn [negb]. split; [reflexivity | apply strip_spec].
Qed.

Lemma upload_key_construction_witness :
  s3_configured example_environ /\
  no_faults (quiet_world [] no_plan) /\
  fclosed example_file = false /\
  exists w',
    s3_service.upload_to_s3 example_environ example_file "a.mp4"
      (Some "/uploads/") (quiet_world [] no_plan) = (Ok "uploads/a.mp4", w').
Proof.
  assert (Hc : s3_configured example_environ) by (repeat split).
  assert (Hn : no_faults (quiet_world [] no_plan)) by (intros n ev; reflexivity).
  assert (Ho : fclosed example_file = false) by reflexivity.
  repeat (split; [assumption|]).
  destruct (upload_key_construction example_environ example_file "a.mp4"
              (Some "/uploads/") _ Hc Hn Ho) as (key & w' & Hrun & _ & Hkey & _).
  exists w'. rewrite Hrun.
  destruct (decide ("/uploads/" = EmptyString)) as [Habs|_];
    [discriminate Habs|].
  destruct Hkey as [-> _]. reflexivity.
Defined.

(** C7 -- configuration failure.  When one of [DB_HOST], [DB_USER],
    [DB_PASS], [DB_NAME] is unset, each of [insert_video], [get_video]
    and [list_videos] raises [ValueError] without a single driver call;
    when one of [AWS_ACCESS_KEY_ID], [AWS_SECRET_ACCESS_KEY],
    [S3_BUCKET_NAME] is unset, so does [upload_to_s3]. *)
Theorem missing_configuration_fails_first environ w :
  (db_setting_unset environ ->
   (forall id u f k st,
      fails_before_any_call (db_service.insert_video environ id u f k st) w)
   /\ (forall id, fails_before_any_call (db_service.get_video environ id) w)
   /\ (forall u s k,
         fails_before_any_call (db_service.list_videos environ u s k) w)) /\
  (s3_setting_unset environ ->
   forall file filename folder,
     fails_before_any_call
       (s3_service.upload_to_s3 environ file filename folder) w).
Proof.
  destruct w as [vs oc ocu clk tk fp tr s3 lg tb]. split.
  - intros Hunset.
    assert (Hb : forallb truthy
                   [db_service.DB_HOST environ; db_service.DB_USER environ;
                    db_service.DB_PASS environ; db_service.DB_NAME environ]
                 = false).
    { unfold db_setting_unset in Hunset.
      rewrite !elem_of_cons, elem_of_nil in Hunset.
      destruct Hunset as [H|[H|[H|[H|[]]]]]; rewrite <- H; cbn;
        rewrite ?andb_false_r; reflexivity. }
    unfold fails_before_any_call.
    split; [|split]; intros;
      unfold db_service.insert_video, db_service.get_video,
        db_service.list_videos, db_service.get_db_connection;
      rewrite Hb; py_unfold; py_classify;
      eexists _, _; repeat split.
  - intros Hunset file filename folder.
    unfold s3_setting_unset in Hunset.
    rewrite !elem_of_cons, elem_of_nil in Hunset.
    unfold fails_before_any_call, s3_service.upload_to_s3,
      s3_service.get_s3_client.
    destruct Hunset as [H|[H|[H|[]]]]; rewrite <- H; cbn [truthy];
      repeat match goal with
             | |- context [truthy ?o] => destruct (truthy o)
             end;
      cbn [negb orb]; py_unfold; py_classify; eexists _, _; repeat split.
Qed.

Lemma missing_configuration_fails_first_witness :
  db_setting_unset empty_environ /\
  s3_setting_unset empty_environ /\
  fails_before_any_call
    (db_service.insert_video empty_environ "v2" "bob" "b.mp4" "k" "pending")
    (quiet_world [alice_row] no_plan) /\
  fails_before_any_call (db_service.get_video empty_environ "v1")
    (quiet_world [alice_row] no_plan) /\
  fails_before_any_call (db_service.list_videos empty_environ None None 100)
    (quiet_world [alice_row] no_plan) /\
  fails_before_any_call
    (s3_service.upload_to_s3 empty_environ example_file "a.mp4" None)
    (quiet_world [alice_row] no_plan).
Proof.
  assert (Hd : db_setting_unset empty_environ) by (unfold db_setting_unset; left).
  assert (Hs : s3_setting_unset empty_environ) by (unfold s3_setting_unset; left).
  destruct (missing_configuration_fails_first empty_environ
              (quiet_world [alice_row] no_plan)) as [Hdb Hs3].
  destruct (Hdb Hd) as (Hi & Hg & Hl).
  repeat split; try assumption.
  - apply Hi.
  - apply Hg.
  - apply Hl.
  - apply Hs3, Hs.
Defined.

(** C8 -- resource release, where it fails.  When the connection is made
    and [conn.cursor()] then raises, each of the three operations
    reaches its [finally] block with [cursor] unbound: [cursor.close()]
    raises [UnboundLocalError], [conn.close()] is never called, and the
    connection stays open. *)
Theorem cursor_failure_leaks_connection environ w e :
  db_configured environ ->
  fault_plan w (length (trace w)) (ev_connect environ) = None ->
  fault_plan w (S (length (trace w))) EvCursor = Some e ->
  (forall id u f k st,
     leaks_connection (db_service.insert_video environ id u f k st) w) /\
  (forall id, leaks_connection (db_service.get_video environ id) w) /\
  (forall u s k, leaks_connection (db_service.list_videos environ u s k) w).
Proof.
  intros Hc H0 H1.
  destruct w as [vs oc ocu clk tk fp tr s3 lg tb]. cbn in H0, H1.
  unfold ev_connect in H0. unfold leaks_connection.
  split; [|split]; intros;
    unfold db_service.insert_video, db_service.get_video,
      db_service.list_videos, db_service.get_db_connection;
    rewrite Hc; py_unfold; rewrite H0; py_unfold;
    rewrite length_app; cbn [length]; rewrite Nat.add_1_r, H1; py_unfold;
    py_paths fp; tidy_lists;
    (eexists _, _; split; [reflexivity|]; split; [reflexivity|];
     split; [reflexivity|]);
    cbn [trace]; rewrite drop_app_length;
    rewrite !not_elem_of_cons; repeat split; try discriminate;
    apply not_elem_of_nil.
Qed.

Lemma cursor_failure_leaks_connection_witness :
  db_configured example_environ /\
  fault_plan (quiet_world [alice_row] cursor_fails) 0
    (ev_connect example_environ) = None /\
  fault_plan (quiet_world [alice_row] cursor_fails) 1 EvCursor =
    Some (mkExn OperationalError "server closed the connection") /\
  leaks_connection
    (db_service.insert_video example_environ "v2" "bob" "b.mp4" "k" "pending")
    (quiet_world [alice_row] cursor_fails) /\
  leaks_connection (db_service.get_video example_environ "v1")
    (quiet_world [alice_row] cursor_fails) /\
  leaks_connection (db_service.list_videos example_environ None None 100)
    (quiet_world [alice_row] cursor_fails).
Proof.
  assert (Hc : db_configured example_environ) by reflexivity.
  destruct (cursor_failure_leaks_connection example_environ
              (quiet_world [alice_row] cursor_fails)
              (mkExn OperationalError "server closed the connection")
              Hc eq_refl eq_refl) as (Hi & Hg & Hl).
  repeat split; try assumption.
  - apply Hi.
  - apply Hg.
  - apply Hl.
Defined.

(** The same run, evaluated: [get_video] for a stored id ends with one
    connection open and an exception that is not the driver's. *)
Example get_video_cursor_failure_run :
  match db_service.get_video example_environ "v1"
          (quiet_world [alice_row] cursor_fails) with
  | (r, w') =>
      r = Raise (mkExn UnboundLocalError
                   "cannot access local variable 'cursor' where it is not associated with a value")
      /\ open_conns w' = 1%nat
      /\ trace w' = [ev_connect example_environ; EvCursor]
  end.
Proof. vm_compute. repeat split. Qed.

(** C9 -- an empty-string filter is an absent filter.  For every world,
    cap and other filter, [list_videos] with [user_id] (or [status])
    given as the empty string does exactly what it does with that filter
    omitted; on a table holding a record of user ["alice"] the call
    with the empty [user_id] returns that record. *)
Theorem empty_filter_is_absent environ k w :
  (forall s, db_service.list_videos environ (Some EmptyString) s k w =
             db_service.list_videos environ None s k w) /\
  (forall u, db_service.list_videos environ u (Some EmptyString) k w =
             db_service.list_videos environ u None k w) /\
  fst (db_service.list_videos example_environ (Some EmptyString) None 100
         (quiet_world [alice_row] no_plan)) = Ok [row_dict alice_row].
Proof.
  split; [|split].
  - intros s. reflexivity.
  - intros u. reflexivity.
  - vm_compute. reflexivity.
Qed.

(** C10 -- [insert_video] never returns [False].  For every
    environment, world, fault plan and arguments the call either returns
    [True], and then the new row has been committed to the table, or
    raises. *)
Theorem insert_video_true_or_raises environ id u f k st w :
  (exists w', db_service.insert_video environ id u f k st w = (Ok true, w')
              /\ videos w' = videos w ++ [new_row w id u f k st]
              /\ exists evs, trace w' = trace w ++ evs /\ EvCommit ∈ evs)
  \/ (exists e w',
        db_service.insert_video environ id u f k st w = (Raise e, w')).
Proof.
  unfold db_service.insert_video, db_service.get_db_connection.
  destruct w as [vs oc ocu clk tk fp tr s3 lg tb].
  destruct (forallb truthy _); py_unfold; py_paths fp; tidy_lists;
    try (right; eauto; fail).
  left. eexists. split; [reflexivity|]. split; [reflexivity|].
  eexists. split; [reflexivity|]. do 3 right. left.
Qed.

(** * Further properties of the two modules *)

(** Split on everything a run can depend on: the fault plan, the tests
    on exceptions, the database's own checks. *)
Ltac py_every_path fp :=
  py_unfold;
  repeat first
    [ progress (rewrite ?dict_truthy_row; py_unfold)
    | match goal with
      | |- context [match fp ?n ?ev with _ => _ end] => destruct (fp n ev)
      | |- context [decide ?P] => destruct (decide P)
      | |- context [match filter ?P ?l with _ => _ end] =>
          destruct (filter P l)
      | |- context [Z.ltb ?a ?b] => destruct (Z.ltb a b)
      | |- context [is_class ?c ?e] => destruct (is_class c e)
      | |- context [is_psycopg2_Error ?e] => destruct (is_psycopg2_Error e)
      end; py_unfold ].

(** Run under a plan that fails one kind of call; [H] is an equation to
    rewrite with on the way. *)
Ltac py_plan_with H :=
  py_unfold;
  cbv beta iota delta [fails_on is_connect is_execute is_commit is_rollback
                       is_cursor_close is_upload];
  repeat first
    [ progress (rewrite ?dict_truthy_row, ?H; py_unfold)
    | match goal with
      | |- context [is_class ?c ?e] => destruct (is_class c e)
      | |- context [is_psycopg2_Error ?e] => destruct (is_psycopg2_Error e)
      end; py_unfold ].

Ltac py_plan := py_plan_with dict_truthy_row.

Lemma is_class_false c e : exn_class e <> c -> is_class c e = false.
Proof. destruct e as [[] msg resp], c; cbn; congruence. Qed.

(** ** The table under [insert_video] *)

(** X2 -- [insert_video] writes nothing when it raises: if
    [conn.cursor()] and the two [close()] calls go through and the call
    raises, for whatever reason, the table is exactly what it was. *)
Theorem insert_video_raise_leaves_table environ id u f k st w e w' :
  release_calls_succeed w ->
  db_service.insert_video environ id u f k st w = (Raise e, w') ->
  videos w' = videos w.
Proof.
  intros Hrel.
  destruct w as [vs oc ocu clk tk fp tr s3 lg tb].
  assert (H1 : forall n, fp n EvCursor = None) by (intros n; apply (Hrel n)).
  assert (H2 : forall n, fp n EvCursorClose = None)
    by (intros n; apply (Hrel n)).
  assert (H3 : forall n, fp n EvConnClose = None)
    by (intros n; apply (Hrel n)).
  unfold db_service.insert_video, db_service.get_db_connection.
  destruct (forallb truthy _); py_release fp H1 H2 H3;
    intros H; inversion H; reflexivity.
Qed.

Lemma insert_video_raise_leaves_table_witness :
  release_calls_succeed (quiet_world [alice_row] no_plan) /\
  exists e w',
    db_service.insert_video example_environ "v1" "bob" "b.mp4" "k2" "pending"
      (quiet_world [alice_row] no_plan) = (Raise e, w') /\
    videos w' = [alice_row].
Proof.
  assert (Hrel : release_calls_succeed (quiet_world [alice_row] no_plan))
    by (intros n; repeat split).
  assert (Hc : db_configured example_environ) by reflexivity.
  assert (Hn : no_faults (quiet_world [alice_row] no_plan))
    by (intros n ev; reflexivity).
  assert (Hdup : "v1" ∈ video_id <$> videos (quiet_world [alice_row] no_plan))
    by (cbn; left).
  pose proof (insert_video_dup example_environ Hc _ "v1" "bob" "b.mp4" "k2"
                "pending" Hn Hdup) as Heq.
  split; [exact Hrel|]. eexists _, _. split; [exact Heq|].
  exact (insert_video_raise_leaves_table _ _ _ _ _ _ _ _ _ Hrel Heq).
Defined.

(** X3 -- reading never writes: [get_video] and [list_videos] leave the
    table as it was, for every argument, in every environment and under
    every failure of the driver. *)
Theorem reads_leave_table environ w :
  (forall id,
     videos (snd (db_service.get_video environ id w)) = videos w) /\
  (forall u s k,
     videos (snd (db_service.list_videos environ u s k w)) = videos w).
Proof.
  destruct w as [vs oc ocu clk tk fp tr s3 lg tb].
  split; intros;
    unfold db_service.get_video, db_service.list_videos,
      db_service.get_db_connection;
    destruct (forallb truthy _); py_every_path fp; reflexivity.
Qed.

(** X4 -- release.  As long as [conn.cursor()] and the two [close()]
    calls go through, each of [insert_video], [get_video] and
    [list_videos] leaves as many connections and cursors open as it
    found, whatever else fails and whatever it returns or raises. *)
Theorem operations_release_what_they_open environ w :
  release_calls_succeed w ->
  (forall id u f k st,
     releases (db_service.insert_video environ id u f k st) w) /\
  (forall id, releases (db_service.get_video environ id) w) /\
  (forall u s k, releases (db_service.list_videos environ u s k) w).
Proof.
  intros Hrel. split; [|split]; intros.
  - apply insert_video_releases, Hrel.
  - apply get_video_releases, Hrel.
  - apply list_videos_releases, Hrel.
Qed.

Lemma operations_release_what_they_open_witness :
  release_calls_succeed
    (quiet_world [alice_row] (fails_on is_execute example_exn)) /\
  releases (db_service.get_video example_environ "v1")
    (quiet_world [alice_row] (fails_on is_execute example_exn)).
Proof.
  assert (Hrel : release_calls_succeed
                   (quiet_world [alice_row] (fails_on is_execute example_exn)))
    by (intros n; repeat split).
  split; [exact Hrel|].
  destruct (operations_release_what_they_open example_environ _ Hrel)
    as (_ & Hg & _).
  exact (Hg "v1").
Defined.

(** ** When one driver call fails *)

Section failing_calls.

Variable environ : string -> option string.
Hypothesis Hconf : db_configured environ.
Variable w : World.
Variable e : Exn.

(** X5 -- connection failure.  When [psycopg2.connect] raises an
    exception other than an integrity error, each of the three
    operations raises that same exception, has made no driver call but
    the connect, and attempts no rollback and no close on the connection
    it never got. *)
Theorem connect_failure_propagates :
  exn_class e <> IntegrityError ->
  fault_plan w = fails_on is_connect e ->
  (forall id u f k st,
     raises_with (db_service.insert_video environ id u f k st) w e
       [ev_connect environ]) /\
  (forall id,
     raises_with (db_service.get_video environ id) w e [ev_connect environ])
  /\
  (forall u s k,
     raises_with (db_service.list_videos environ u s k) w e
       [ev_connect environ]).
Proof.
  intros Hcls Hplan.
  destruct w as [vs oc ocu clk tk fp tr s3 lg tb]. cbn in Hplan. subst fp.
  unfold raises_with.
  apply is_class_false in Hcls.
  split; [|split]; intros;
    unfold db_service.insert_video, db_service.get_video,
      db_service.list_videos, db_service.get_db_connection;
    rewrite Hconf; py_plan_with Hcls; tidy_lists;
    eexists; repeat split.
Qed.

(** X6 -- a connection failure is logged twice.  When
    [psycopg2.connect] raises an [OperationalError], the error log gets
    two lines for the one failure: one from [get_db_connection] and one
    from the handler of the operation that called it. *)
Theorem connect_operational_error_is_logged_twice msg :
  fault_plan w = fails_on is_connect (mkExn OperationalError msg) ->
  (forall id u f k st,
     logs (snd (db_service.insert_video environ id u f k st w)) =
     logs w ++
     [(ERROR, "Failed to connect to database: " +:+ msg);
      (ERROR, "Database error inserting video " +:+ id +:+ ": " +:+ msg)]) /\
  (forall id,
     logs (snd (db_service.get_video environ id w)) =
     logs w ++
     [(ERROR, "Failed to connect to database: " +:+ msg);
      (ERROR, "Database error getting video " +:+ id +:+ ": " +:+ msg)]) /\
  (forall u s k,
     logs (snd (db_service.list_videos environ u s k w)) =
     logs w ++
     [(ERROR, "Failed to connect to database: " +:+ msg);
      (ERROR, "Database error listing videos: " +:+ msg)]).
Proof.
  intros Hplan.
  destruct w as [vs oc ocu clk tk fp tr s3 lg tb]. cbn in Hplan. subst fp.
  split; [|split]; intros;
    unfold db_service.insert_video, db_service.get_video,
      db_service.list_videos, db_service.get_db_connection;
    rewrite Hconf; py_unfold;
    cbv beta iota delta [fails_on is_connect]; py_classify; py_unfold;
    cbv beta iota delta [exn_msg]; tidy_lists; reflexivity.
Qed.

(** X7 -- statement failure.  When [cursor.execute] raises any
    exception, each of the three operations raises that same exception,
    leaves the table as it was and closes cursor and connection;
    [insert_video] rolls back first. *)
Theorem execute_failure_propagates :
  fault_plan w = fails_on is_execute e ->
  (forall id u f k st,
     raises_with (db_service.insert_video environ id u f k st) w e
       [ev_connect environ; EvCursor;
        EvExecute (InsertVideo (new_row w id u f k st));
        EvRollback; EvCursorClose; EvConnClose]) /\
  (forall id,
     raises_with (db_service.get_video environ id) w e
       [ev_connect environ; EvCursor; EvExecute (SelectById id);
        EvCursorClose; EvConnClose]) /\
  (forall u s k,
     raises_with (db_service.list_videos environ u s k) w e
       [ev_connect environ; EvCursor;
        EvExecute (SelectWhere (filters u s) k);
        EvCursorClose; EvConnClose]).
Proof.
  intros Hplan.
  destruct w as [vs oc ocu clk tk fp tr s3 lg tb]. cbn in Hplan. subst fp.
  unfold raises_with.
  split; [|split].
  - intros id u f k st.
    unfold db_service.insert_video, db_service.get_db_connection.
    rewrite Hconf.
    py_plan; tidy_lists; eexists; repeat split.
  - intros id.
    unfold db_service.get_video, db_service.get_db_connection.
    rewrite Hconf.
    py_plan; tidy_lists; eexists; repeat split.
  - intros u s k.
    unfold db_service.list_videos, db_service.get_db_connection, filters.
    rewrite Hconf.
    destruct u as [x|]; [destruct (truthy (Some x))|];
      (destruct s as [y|]; [destruct (truthy (Some y))|]);
      py_plan; tidy_lists; eexists; repeat split.
Qed.

(** X8 -- commit failure.  When the insert statement is accepted and
    [conn.commit()] raises, [insert_video] rolls back, raises that same
    exception, leaves the table as it was and closes cursor and
    connection. *)
Theorem commit_failure_rolls_back id u f k st :
  fault_plan w = fails_on is_commit e ->
  id ∉ video_id <$> videos w ->
  raises_with (db_service.insert_video environ id u f k st) w e
    [ev_connect environ; EvCursor;
     EvExecute (InsertVideo (new_row w id u f k st));
     EvCommit; EvRollback; EvCursorClose; EvConnClose].
Proof.
  intros Hplan Hfresh.
  destruct w as [vs oc ocu clk tk fp tr s3 lg tb]. cbn in Hplan, Hfresh.
  subst fp. unfold raises_with.
  unfold db_service.insert_video, db_service.get_db_connection.
  rewrite Hconf.
  py_plan; tidy_lists;
    match goal with
    | |- context [decide ?P] =>
        destruct (decide P) as [Hd|_]; [exfalso; exact (Hfresh Hd)|]
    end;
    py_plan; tidy_lists; eexists; repeat split.
Qed.

(** X9 -- a failing rollback hides the conflict.  When the [video_id]
    is already in the table and the [conn.rollback()] of the handler
    raises, [insert_video] raises the rollback's exception, not the
    integrity error; the table is as it was and cursor and connection
    are closed. *)
Theorem rollback_failure_hides_conflict id u f k st :
  fault_plan w = fails_on is_rollback e ->
  id ∈ video_id <$> videos w ->
  raises_with (db_service.insert_video environ id u f k st) w e
    [ev_connect environ; EvCursor;
     EvExecute (InsertVideo (new_row w id u f k st));
     EvRollback; EvCursorClose; EvConnClose].
Proof.
  intros Hplan Hdup.
  destruct w as [vs oc ocu clk tk fp tr s3 lg tb]. cbn in Hplan, Hdup.
  subst fp. unfold raises_with.
  unfold db_service.insert_video, db_service.get_db_connection.
  rewrite Hconf.
  py_plan; tidy_lists;
    match goal with
    | |- context [decide ?P] =>
        destruct (decide P) as [_|Hd]; [|exfalso; exact (Hd Hdup)]
    end;
    py_plan; py_classify; py_plan; tidy_lists; eexists; repeat split.
Qed.

(** X10 -- a failing [cursor.close()] after the commit.  When a fresh
    record is inserted and committed and the [cursor.close()] of the
    [finally] block raises, [insert_video] raises that exception instead
    of returning [True], although the row is in the table;
    [conn.close()] is not called and the connection stays open. *)
Theorem cursor_close_failure_after_commit id u f k st :
  fault_plan w = fails_on is_cursor_close e ->
  id ∉ video_id <$> videos w ->
  exists w',
    db_service.insert_video environ id u f k st w = (Raise e, w') /\
    videos w' = videos w ++ [new_row w id u f k st] /\
    open_conns w' = S (open_conns w) /\
    new_calls (db_service.insert_video environ id u f k st) w =
    [ev_connect environ; EvCursor;
     EvExecute (InsertVideo (new_row w id u f k st));
     EvCommit; EvCursorClose].
Proof.
  intros Hplan Hfresh.
  destruct w as [vs oc ocu clk tk fp tr s3 lg tb]. cbn in Hplan, Hfresh.
  subst fp. unfold new_calls.
  unfold db_service.insert_video, db_service.get_db_connection.
  rewrite Hconf.
  py_plan; tidy_lists;
    match goal with
    | |- context [decide ?P] =>
        destruct (decide P) as [Hd|_]; [exfalso; exact (Hfresh Hd)|]
    end;
    py_plan; tidy_lists; eexists; repeat split; apply drop_app_length.
Qed.

(** X11 -- the cap is not checked by the module.  A negative [limit]
    is sent to the database as it is; the database refuses it, and
    [list_videos] raises that [DataError] after closing cursor and
    connection. *)
Theorem negative_limit_reaches_database u s k :
  no_faults w ->
  k < 0 ->
  raises_with (db_service.list_videos environ u s k) w
    (mkExn DataError ("LIMIT must not be negative" +:+ newline))
    [ev_connect environ; EvCursor; EvExecute (SelectWhere (filters u s) k);
     EvCursorClose; EvConnClose].
Proof.
  intros Hn Hlt.
  destruct w as [vs oc ocu clk tk fp tr s3 lg tb].
  unfold no_faults in Hn. cbn in Hn.
  assert (Hneg : (k <? 0)%Z = true) by (apply Z.ltb_lt; lia).
  unfold raises_with, db_service.list_videos, db_service.get_db_connection,
    filters.
  rewrite Hconf.
  destruct u as [x|]; [destruct (truthy (Some x))|];
    (destruct s as [y|]; [destruct (truthy (Some y))|]);
    py_run Hn; rewrite Hneg; py_run Hn; tidy_lists; eexists; repeat split.
Qed.

End failing_calls.

Lemma connect_failure_propagates_witness :
  db_configured example_environ /\
  exn_class example_exn <> IntegrityError /\
  fault_plan (quiet_world [alice_row] (fails_on is_connect example_exn)) =
    fails_on is_connect example_exn /\
  raises_with (db_service.get_video example_environ "v1")
    (quiet_world [alice_row] (fails_on is_connect example_exn)) example_exn
    [ev_connect example_environ].
Proof.
  assert (Hc : db_configured example_environ) by reflexivity.
  assert (Hcls : exn_class example_exn <> IntegrityError) by discriminate.
  destruct (connect_failure_propagates example_environ Hc
              (quiet_world [alice_row] (fails_on is_connect example_exn))
              example_exn Hcls eq_refl) as (_ & Hg & _).
  exact (conj Hc (conj Hcls (conj eq_refl (Hg "v1")))).
Defined.

Lemma connect_operational_error_is_logged_twice_witness :
  db_configured example_environ /\
  fault_plan (quiet_world [alice_row] (fails_on is_connect example_exn)) =
    fails_on is_connect (mkExn OperationalError "connection reset") /\
  logs (snd (db_service.get_video example_environ "v1"
               (quiet_world [alice_row] (fails_on is_connect example_exn)))) =
  [(ERROR, "Failed to connect to database: connection reset");
   (ERROR, "Database error getting video v1: connection reset")].
Proof.
  assert (Hc : db_configured example_environ) by reflexivity.
  destruct (connect_operational_error_is_logged_twice example_environ Hc
              (quiet_world [alice_row] (fails_on is_connect example_exn))
              "connection reset" eq_refl) as (_ & Hg & _).
  exact (conj Hc (conj eq_refl (Hg "v1"))).
Defined.

Lemma execute_failure_propagates_witness :
  db_configured example_environ /\
  fault_plan (quiet_world [alice_row] (fails_on is_execute example_exn)) =
    fails_on is_execute example_exn /\
  raises_with (db_service.get_video example_environ "v1")
    (quiet_world [alice_row] (fails_on is_execute example_exn)) example_exn
    [ev_connect example_environ; EvCursor; EvExecute (SelectById "v1");
     EvCursorClose; EvConnClose].
Proof.
  assert (Hc : db_configured example_environ) by reflexivity.
  destruct (execute_failure_propagates example_environ Hc
              (quiet_world [alice_row] (fails_on is_execute example_exn))
              example_exn eq_refl) as (_ & Hg & _).
  exact (conj Hc (conj eq_refl (Hg "v1"))).
Defined.

Lemma commit_failure_rolls_back_witness :
  db_configured example_environ /\
  fault_plan (quiet_world [alice_row] (fails_on is_commit example_exn)) =
    fails_on is_commit example_exn /\
  ("v2" ∉ video_id <$>
     videos (quiet_world [alice_row] (fails_on is_commit example_exn))) /\
  exists w',
    db_service.insert_video example_environ "v2" "bob" "b.mp4" "k2" "pending"
      (quiet_world [alice_row] (fails_on is_commit example_exn)) =
    (Raise example_exn, w') /\
    videos w' = [alice_row].
Proof.
  assert (Hc : db_configured example_environ) by reflexivity.
  assert (Hf : "v2" ∉ video_id <$>
                 videos (quiet_world [alice_row]
                           (fails_on is_commit example_exn)))
    by (cbn; rewrite list_elem_of_singleton; discriminate).
  destruct (commit_failure_rolls_back example_environ Hc
              (quiet_world [alice_row] (fails_on is_commit example_exn))
              example_exn
              "v2" "bob" "b.mp4" "k2" "pending" eq_refl Hf)
    as (w' & Hrun & _ & Hv & _).
  repeat (split; [assumption || reflexivity|]).
  exists w'. split; [exact Hrun | exact Hv].
Defined.

Lemma rollback_failure_hides_conflict_witness :
  db_configured example_environ /\
  fault_plan (quiet_world [alice_row] (fails_on is_rollback example_exn)) =
    fails_on is_rollback example_exn /\
  ("v1" ∈ video_id <$>
     videos (quiet_world [alice_row] (fails_on is_rollback example_exn))) /\
  exists w',
    db_service.insert_video example_environ "v1" "bob" "b.mp4" "k2" "pending"
      (quiet_world [alice_row] (fails_on is_rollback example_exn)) =
    (Raise example_exn, w') /\
    videos w' = [alice_row].
Proof.
  assert (Hc : db_configured example_environ) by reflexivity.
  assert (Hd : "v1" ∈ video_id <$>
                 videos (quiet_world [alice_row]
                           (fails_on is_rollback example_exn)))
    by (cbn; left).
  destruct (rollback_failure_hides_conflict example_environ Hc
              (quiet_world [alice_row] (fails_on is_rollback example_exn))
              example_exn
              "v1" "bob" "b.mp4" "k2" "pending" eq_refl Hd)
    as (w' & Hrun & _ & Hv & _).
  repeat (split; [assumption || reflexivity|]).
  exists w'. split; [exact Hrun | exact Hv].
Defined.

Lemma cursor_close_failure_after_commit_witness :
  db_configured example_environ /\
  fault_plan (quiet_world [alice_row] (fails_on is_cursor_close example_exn))
    = fails_on is_cursor_close example_exn /\
  ("v2" ∉ video_id <$>
     videos (quiet_world [alice_row]
               (fails_on is_cursor_close example_exn))) /\
  exists w',
    db_service.insert_video example_environ "v2" "bob" "b.mp4" "k2" "pending"
      (quiet_world [alice_row] (fails_on is_cursor_close example_exn)) =
    (Raise example_exn, w') /\
    length (videos w') = 2%nat /\
    open_conns w' = 1%nat.
Proof.
  assert (Hc : db_configured example_environ) by reflexivity.
  assert (Hf : "v2" ∉ video_id <$>
                 videos (quiet_world [alice_row]
                           (fails_on is_cursor_close example_exn)))
    by (cbn; rewrite list_elem_of_singleton; discriminate).
  destruct (cursor_close_failure_after_commit example_environ Hc
              (quiet_world [alice_row] (fails_on is_cursor_close example_exn))
              example_exn "v2" "bob" "b.mp4" "k2" "pending" eq_refl Hf)
    as (w' & Hrun & Hv & Ho & _).
  repeat (split; [assumption || reflexivity|]).
  exists w'. split; [exact Hrun|]. rewrite Hv, Ho. split; reflexivity.
Defined.

Lemma negative_limit_reaches_database_witness :
  db_configured example_environ /\
  no_faults (quiet_world [alice_row] no_plan) /\
  -1 < 0 /\
  raises_with (db_service.list_videos example_environ None None (-1))
    (quiet_world [alice_row] no_plan)
    (mkExn DataError ("LIMIT must not be negative" +:+ newline))
    [ev_connect example_environ; EvCursor;
     EvExecute (SelectWhere (filters None None) (-1));
     EvCursorClose; EvConnClose].
Proof.
  assert (Hc : db_configured example_environ) by reflexivity.
  assert (Hn : no_faults (quiet_world [alice_row] no_plan))
    by (intros n ev; reflexivity).
  assert (Hk : -1 < 0) by lia.
  exact (conj Hc (conj Hn (conj Hk
    (negative_limit_reaches_database example_environ Hc _ None None (-1)
       Hn Hk)))).
Defined.

(** ** How the operations compose *)

Lemma matches_filters_row_matches u s r :
  matches_filters u s r -> row_matches (filters u s) r.
Proof.
  unfold matches_filters, row_matches, filters. intros [Hu Hs].
  destruct u as [x|], s as [y|]; cbn in Hu, Hs;
    repeat match goal with
           | |- context [truthy ?o] => destruct (truthy o)
           end;
    cbn; repeat constructor; assumption.
Qed.

Lemma selected_keys_unique u s k w :
  keys_unique w -> NoDup (video_id <$> selected u s k w).
Proof.
  unfold keys_unique, selected. intros Hnd.
  rewrite fmap_take. eapply sublist_NoDup; [|apply sublist_take].
  rewrite merge_sort_Permutation.
  eapply sublist_NoDup; [exact Hnd|].
  apply fmap_sublist, sublist_filter.
Qed.

Lemma selected_stored u s k w r :
  r ∈ selected u s k w -> r ∈ videos w /\ row_matches (filters u s) r.
Proof.
  unfold selected. intros H. apply subseteq_take in H.
  rewrite merge_sort_Permutation in H.
  apply list_elem_of_filter in H. tauto.
Qed.

(** The head of a descending sort is the one row that is more recent
    than all others. *)
Lemma merge_sort_latest rank (l : list VideoRecord) (r : VideoRecord) :
  r ∈ l ->
  (forall r', r' ∈ l -> r' = r \/ created_at r' < created_at r) ->
  head (merge_sort (plan_order rank) l) = Some r.
Proof.
  intros Hin Hmax.
  pose proof (plan_sort_sorted rank l) as Hs.
  pose proof (merge_sort_Permutation (plan_order rank) l) as Hp.
  destruct (merge_sort (plan_order rank) l) as [|h t].
  - symmetry in Hp. apply Permutation_nil_r in Hp. subst l.
    apply elem_of_nil in Hin. contradiction.
  - cbn. f_equal.
    assert (Hh : h ∈ l) by (rewrite <- Hp; left).
    destruct (Hmax h Hh) as [->|Hlt]; [reflexivity|].
    rewrite <- Hp in Hin. apply elem_of_cons in Hin as [->|Hin]; [reflexivity|].
    apply StronglySorted_cons in Hs as [Hall _].
    rewrite Forall_forall in Hall. specialize (Hall r Hin).
    unfold created_desc in Hall. lia.
Qed.

Section composition.

Variable environ : string -> option string.
Hypothesis Hconf : db_configured environ.
Variable w : World.
Hypothesis Hn : no_faults w.

(** X12 -- an insert does not disturb other records.  After a
    successful insert of a fresh [video_id], [get_video] on any other id
    answers exactly what it answered before. *)
Theorem insert_keeps_other_records id u f k st id' :
  id ∉ video_id <$> videos w ->
  id' <> id ->
  exists w1,
    db_service.insert_video environ id u f k st w = (Ok true, w1) /\
    fst (db_service.get_video environ id' w1) =
    fst (db_service.get_video environ id' w).
Proof.
  intros Hfresh Hne. eexists.
  split; [apply insert_video_fresh; assumption|].
  rewrite !get_video_run by first [assumption | intros n ev; apply Hn].
  unfold lookup_row. cbn [fst videos extend set_logs set_trace set_ticks
                          set_videos].
  rewrite filter_app, (filter_cons_False _ (new_row w id u f k st))
    by (cbn; congruence).
  rewrite filter_nil, app_nil_r. reflexivity.
Qed.

(** X13 -- an inserted record is listed.  After a successful insert,
    [list_videos] with filters the new record satisfies returns that
    record, provided the cap leaves room for it (fewer matching records
    than [limit] were stored before). *)
Theorem inserted_record_is_listed id u f k st u' s' lim :
  id ∉ video_id <$> videos w ->
  matches_filters u' s' (new_row w id u f k st) ->
  0 <= lim <= max_bigint ->
  (length (filter (row_matches (filters u' s')) (videos w)) < Z.to_nat lim)%nat
  ->
  exists w1 ds w2,
    db_service.insert_video environ id u f k st w = (Ok true, w1) /\
    db_service.list_videos environ u' s' lim w1 = (Ok ds, w2) /\
    row_dict (new_row w id u f k st) ∈ ds.
Proof.
  intros Hfresh Hm Hlim Hroom. eexists _, _, _.
  split; [apply insert_video_fresh; assumption|].
  split; [apply list_videos_run;
          [assumption | intros n ev; apply Hn | assumption]|].
  apply list_elem_of_fmap_2. unfold selected.
  cbn [videos extend set_logs set_trace set_ticks set_videos].
  rewrite filter_app,
    (filter_cons_True _ (new_row w id u f k st))
    by (apply matches_filters_row_matches; assumption).
  rewrite filter_nil, take_ge.
  - rewrite merge_sort_Permutation, elem_of_app, list_elem_of_singleton. auto.
  - erewrite Permutation_length by apply merge_sort_Permutation.
    rewrite length_app. cbn. lia.
Qed.

(** X15 -- a smaller cap gives a prefix.  On the same table and with
    the same filters, when no two matching records share their
    [created_at], the result of [list_videos] with cap [k] is the first
    [k] entries of its result with any larger cap [k'].  (Between
    records created at the same time the database is free to order the
    two answers differently.) *)
Theorem smaller_cap_is_prefix u s k k' :
  0 <= k <= k' ->
  k' <= max_bigint ->
  NoDup (created_at <$> filter (row_matches (filters u s)) (videos w)) ->
  exists ds ds',
    fst (db_service.list_videos environ u s k w) = Ok ds /\
    fst (db_service.list_videos environ u s k' w) = Ok ds' /\
    ds = take (Z.to_nat k) ds'.
Proof.
  intros Hk Hk' Hnd. eexists _, _.
  rewrite !list_videos_run by first [assumption | lia].
  split; [reflexivity|]. split; [reflexivity|].
  unfold selected. rewrite <- fmap_take, take_take. f_equal.
  rewrite (plan_sort_unique _
             (tie_break w (length (trace w) + 3)
                (SelectWhere (filters u s) k')) _ Hnd).
  f_equal. lia.
Qed.

(** X16 -- what is listed is stored, once.  On a table whose keys are
    unique, [list_videos] returns rows of stored records that satisfy
    every condition it applied, and no [video_id] twice. *)
Theorem listed_records_are_stored_once u s k :
  0 <= k <= max_bigint ->
  keys_unique w ->
  exists rows,
    fst (db_service.list_videos environ u s k w) = Ok (row_dict <$> rows) /\
    NoDup (video_id <$> rows) /\
    (forall r, r ∈ rows -> r ∈ videos w /\ row_matches (filters u s) r).
Proof.
  intros Hk Hu. exists (selected u s k w).
  rewrite list_videos_run by assumption.
  split; [reflexivity|].
  split; [apply selected_keys_unique; assumption | apply selected_stored].
Qed.

(** X14 -- the latest insert comes first.  When the clock reading of
    an insert is later than the [created_at] of every stored record,
    [list_videos] with filters the new record satisfies and a cap of at
    least one returns the new record as its first entry. *)
Theorem latest_insert_is_listed_first id u f k st u' s' lim :
  id ∉ video_id <$> videos w ->
  (forall r, r ∈ videos w -> created_at r < clock w (ticks w)) ->
  matches_filters u' s' (new_row w id u f k st) ->
  1 <= lim <= max_bigint ->
  exists w1 ds w2,
    db_service.insert_video environ id u f k st w = (Ok true, w1) /\
    db_service.list_videos environ u' s' lim w1 = (Ok ds, w2) /\
    head ds = Some (row_dict (new_row w id u f k st)).
Proof.
  intros Hfresh Hlate Hm Hlim. eexists _, _, _.
  split; [apply insert_video_fresh; assumption|].
  split; [apply list_videos_run;
          [assumption | intros n ev; apply Hn | lia]|].
  unfold selected.
  cbn [videos extend set_logs set_trace set_ticks set_videos].
  set (new := new_row w id u f k st) in *.
  match goal with
  | |- context [merge_sort ?R ?l] =>
      assert (Hhead : head (merge_sort R l) = Some new)
  end.
  { apply merge_sort_latest.
    - apply list_elem_of_filter. split.
      + apply matches_filters_row_matches; assumption.
      + apply elem_of_app. right. left.
    - intros r' Hr'. apply list_elem_of_filter in Hr' as [_ Hr'].
      apply elem_of_app in Hr' as [Hr'|Hr'].
      + right. apply Hlate in Hr'. exact Hr'.
      + left. apply list_elem_of_singleton in Hr'. exact Hr'. }
  destruct (merge_sort _ _) as [|h t]; [discriminate Hhead|].
  cbn in Hhead. injection Hhead as ->.
  destruct (Z.to_nat lim) as [|n] eqn:E; [lia|]. reflexivity.
Qed.

End composition.

Lemma insert_keeps_other_records_witness :
  db_configured example_environ /\
  no_faults (quiet_world [alice_row] no_plan) /\
  ("v2" ∉ video_id <$> videos (quiet_world [alice_row] no_plan)) /\
  "v1" <> "v2" /\
  exists w1,
    db_service.insert_video example_environ "v2" "bob" "b.mp4" "k2" "pending"
      (quiet_world [alice_row] no_plan) = (Ok true, w1) /\
    fst (db_service.get_video example_environ "v1" w1) =
    fst (db_service.get_video example_environ "v1"
           (quiet_world [alice_row] no_plan)).
Proof.
  assert (Hc : db_configured example_environ) by reflexivity.
  assert (Hn : no_faults (quiet_world [alice_row] no_plan))
    by (intros n ev; reflexivity).
  assert (Hf : "v2" ∉ video_id <$> videos (quiet_world [alice_row] no_plan))
    by (cbn; rewrite list_elem_of_singleton; discriminate).
  assert (Hne : "v1" <> "v2") by discriminate.
  exact (conj Hc (conj Hn (conj Hf (conj Hne
    (insert_keeps_other_records example_environ Hc _ Hn "v2" "bob" "b.mp4"
       "k2" "pending" "v1" Hf Hne))))).
Defined.

Lemma inserted_record_is_listed_witness :
  db_configured example_environ /\
  no_faults (quiet_world [alice_row] no_plan) /\
  ("v2" ∉ video_id <$> videos (quiet_world [alice_row] no_plan)) /\
  matches_filters (Some "bob") None
    (new_row (quiet_world [alice_row] no_plan) "v2" "bob" "b.mp4" "k2"
       "pending") /\
  0 <= 100 <= max_bigint /\
  exists w1 ds w2,
    db_service.insert_video example_environ "v2" "bob" "b.mp4" "k2" "pending"
      (quiet_world [alice_row] no_plan) = (Ok true, w1) /\
    db_service.list_videos example_environ (Some "bob") None 100 w1 =
    (Ok ds, w2) /\
    row_dict (new_row (quiet_world [alice_row] no_plan) "v2" "bob" "b.mp4"
                "k2" "pending") ∈ ds.
Proof.
  assert (Hc : db_configured example_environ) by reflexivity.
  assert (Hn : no_faults (quiet_world [alice_row] no_plan))
    by (intros n ev; reflexivity).
  assert (Hf : "v2" ∉ video_id <$> videos (quiet_world [alice_row] no_plan))
    by (cbn; rewrite list_elem_of_singleton; discriminate).
  assert (Hm : matches_filters (Some "bob") None
                 (new_row (quiet_world [alice_row] no_plan) "v2" "bob"
                    "b.mp4" "k2" "pending")) by (split; reflexivity || exact I).
  assert (Hk : 0 <= 100 <= max_bigint) by (unfold max_bigint; lia).
  repeat (split; [assumption|]).
  apply (inserted_record_is_listed example_environ Hc _ Hn "v2" "bob" "b.mp4"
           "k2" "pending" (Some "bob") None 100 Hf Hm Hk).
  apply Nat.ltb_lt. vm_compute. reflexivity.
Defined.

Lemma latest_insert_is_listed_first_witness :
  db_configured example_environ /\
  no_faults (quiet_world [alice_row] no_plan) /\
  ("v2" ∉ video_id <$> videos (quiet_world [alice_row] no_plan)) /\
  1 <= 1 <= max_bigint /\
  exists w1 ds w2,
    db_service.insert_video example_environ "v2" "bob" "b.mp4" "k2" "pending"
      (quiet_world [alice_row] no_plan) = (Ok true, w1) /\
    db_service.list_videos example_environ None None 1 w1 = (Ok ds, w2) /\
    head ds =
    Some (row_dict (new_row (quiet_world [alice_row] no_plan) "v2" "bob"
                      "b.mp4" "k2" "pending")).
Proof.
  assert (Hc : db_configured example_environ) by reflexivity.
  assert (Hn : no_faults (quiet_world [alice_row] no_plan))
    by (intros n ev; reflexivity).
  assert (Hf : "v2" ∉ video_id <$> videos (quiet_world [alice_row] no_plan))
    by (cbn; rewrite list_elem_of_singleton; discriminate).
  assert (Hk : 1 <= 1 <= max_bigint) by (unfold max_bigint; lia).
  repeat (split; [assumption|]).
  apply (latest_insert_is_listed_first example_environ Hc _ Hn "v2" "bob"
           "b.mp4" "k2" "pending" None None 1 Hf).
  - intros r Hr. cbn in Hr. apply list_elem_of_singleton in Hr. subst r.
    cbn. lia.
  - split; exact I.
  - exact Hk.
Defined.

Lemma smaller_cap_is_prefix_witness :
  db_configured example_environ /\
  no_faults tied_world /\
  0 <= 2 <= 100 /\
  100 <= max_bigint /\
  NoDup (created_at <$>
         filter (row_matches (filters None (Some "completed")))
           (videos tied_world)) /\
  exists ds ds',
    fst (db_service.list_videos example_environ None (Some "completed") 2
           tied_world) = Ok ds /\
    fst (db_service.list_videos example_environ None (Some "completed") 100
           tied_world) = Ok ds' /\
    ds = take (Z.to_nat 2) ds'.
Proof.
  assert (Hc : db_configured example_environ) by reflexivity.
  assert (Hn : no_faults tied_world) by (intros n ev; reflexivity).
  assert (Hk : 0 <= 2 <= 100) by lia.
  assert (Hk' : 100 <= max_bigint) by (unfold max_bigint; lia).
  assert (Hnd : NoDup (created_at <$>
                       filter (row_matches (filters None (Some "completed")))
                         (videos tied_world))).
  { apply (bool_decide_unpack _). vm_compute. exact I. }
  exact (conj Hc (conj Hn (conj Hk (conj Hk' (conj Hnd
    (smaller_cap_is_prefix example_environ Hc _ Hn None (Some "completed")
       2 100 Hk Hk' Hnd)))))).
Defined.

Lemma listed_records_are_stored_once_witness :
  db_configured example_environ /\
  no_faults (quiet_world [alice_row] no_plan) /\
  0 <= 100 <= max_bigint /\
  keys_unique (quiet_world [alice_row] no_plan) /\
  exists rows,
    fst (db_service.list_videos example_environ (Some "alice") None 100
           (quiet_world [alice_row] no_plan)) = Ok (row_dict <$> rows) /\
    NoDup (video_id <$> rows).
Proof.
  assert (Hc : db_configured example_environ) by reflexivity.
  assert (Hn : no_faults (quiet_world [alice_row] no_plan))
    by (intros n ev; reflexivity).
  assert (Hk : 0 <= 100 <= max_bigint) by (unfold max_bigint; lia).
  assert (Hu : keys_unique (quiet_world [alice_row] no_plan))
    by (unfold keys_unique; cbn; apply NoDup_singleton).
  repeat (split; [assumption|]).
  destruct (listed_records_are_stored_once example_environ Hc _ Hn
              (Some "alice") None 100 Hk Hu) as (rows & Hrun & Hnd & _).
  exists rows. split; assumption.
Defined.

(** ** Object keys and slashes *)

Lemma lstrip_slashes n t : lstrip slash (slashes n +:+ t) = lstrip slash t.
Proof.
  induction n as [|n IH]; [reflexivity|].
  cbn [slashes]. rewrite append_cons. cbn [lstrip].
  destruct (Ascii.eqb_spec slash slash); [exact IH | contradiction].
Qed.

Lemma lstrip_only_slashes m : lstrip slash (slashes m) = EmptyString.
Proof.
  induction m as [|m IH]; [reflexivity|].
  cbn [slashes lstrip].
  destruct (Ascii.eqb_spec slash slash); [exact IH | contradiction].
Qed.

Lemma lstrip_no_head t :
  (forall t', t <> String slash t') -> lstrip slash t = t.
Proof.
  intros Hhead. destruct t as [|c t]; [reflexivity|]. cbn [lstrip].
  destruct (Ascii.eqb_spec c slash) as [->|_]; [|reflexivity].
  exfalso. exact (Hhead t eq_refl).
Qed.

Lemma rstrip_only_slashes m : rstrip slash (slashes m) = EmptyString.
Proof.
  induction m as [|m IH]; [reflexivity|].
  cbn [slashes rstrip]. rewrite IH.
  destruct (Ascii.eqb_spec slash slash); [reflexivity | contradiction].
Qed.

Lemma rstrip_slashes t m : rstrip slash (t +:+ slashes m) = rstrip slash t.
Proof.
  induction t as [|c t IH].
  - apply rstrip_only_slashes.
  - rewrite append_cons. cbn [rstrip]. rewrite IH. reflexivity.
Qed.

Lemma rstrip_no_tail t :
  (forall t', t <> t' +:+ String slash EmptyString) -> rstrip slash t = t.
Proof.
  induction t as [|c t IH]; intros Htail; [reflexivity|].
  cbn [rstrip]. rewrite IH.
  - destruct t as [|d t]; [|reflexivity].
    destruct (Ascii.eqb_spec c slash) as [->|_]; [|reflexivity].
    exfalso. exact (Htail EmptyString eq_refl).
  - intros t' ->. apply (Htail (String c t')). reflexivity.
Qed.

Lemma strip_padded n m t :
  (forall t', t <> String slash t') ->
  (forall t', t <> t' +:+ String slash EmptyString) ->
  strip slash (slashes n +:+ t +:+ slashes m) = t.
Proof.
  intros Hhead Htail. unfold strip.
  rewrite lstrip_slashes.
  destruct t as [|c t].
  - change (EmptyString +:+ slashes m) with (slashes m).
    rewrite lstrip_only_slashes. reflexivity.
  - rewrite lstrip_no_head.
    + rewrite rstrip_slashes. apply rstrip_no_tail, Htail.
    + rewrite append_cons. intros t' H. injection H as -> _.
      exact (Hhead t eq_refl).
Qed.

(** X17 -- slashes around the folder do not matter.  For a folder
    name [t] that neither starts nor ends with a slash, every non-empty
    folder made of [t] with any number of slashes before and after it
    gives the same key, [t/filename]. *)
Theorem folder_slashes_do_not_matter filename t n m :
  (forall t', t <> String slash t') ->
  (forall t', t <> t' +:+ String slash EmptyString) ->
  slashes n +:+ t +:+ slashes m <> EmptyString ->
  s3_service.object_key filename (Some (slashes n +:+ t +:+ slashes m)) =
  t +:+ "/" +:+ filename.
Proof.
  intros Hhead Htail Hne. unfold s3_service.object_key. cbn [truthy].
  destruct (String.eqb_spec (slashes n +:+ t +:+ slashes m) EmptyString)
    as [|_]; [contradiction|].
  cbn [negb]. rewrite strip_padded by assumption. reflexivity.
Qed.

(** X18 -- a folder of slashes only.  A folder that consists of one or
    more slashes is stripped to nothing and still joined: the key is the
    file name with a leading slash. *)
Theorem slash_only_folder_gives_leading_slash filename n :
  (0 < n)%nat ->
  s3_service.object_key filename (Some (slashes n)) = "/" +:+ filename.
Proof.
  intros Hn. unfold s3_service.object_key. cbn [truthy].
  destruct n as [|n]; [lia|].
  cbn [slashes String.eqb negb]. unfold strip.
  change (String slash (slashes n)) with (slashes (S n)).
  rewrite lstrip_only_slashes. reflexivity.
Qed.

(** ** Uploads that fail *)

(** X19 -- upload failure.  When [upload_fileobj] raises any
    exception, [upload_to_s3] raises that same exception after one error
    line in the log, and the bucket is as it was. *)
Theorem upload_failure_propagates environ file filename folder w e :
  s3_configured environ ->
  fclosed file = false ->
  fault_plan w = fails_on is_upload e ->
  exists w' msg,
    s3_service.upload_to_s3 environ file filename folder w = (Raise e, w') /\
    s3_objects w' = s3_objects w /\
    logs w' = logs w ++ [(ERROR, msg)] /\
    trace w' =
    trace w ++
    [EvS3Client (s3_service.AWS_ACCESS_KEY_ID environ)
       (s3_service.AWS_SECRET_ACCESS_KEY environ)
       (s3_service.AWS_REGION environ);
     EvS3Upload (s3_service.S3_BUCKET_NAME environ)
       (s3_service.object_key filename folder) (fdata file)].
Proof.
  intros (Ha & Hs & Hb) Hopen Hplan.
  destruct w as [vs oc ocu clk tk fp tr s3 lg tb], file as [data pos closed].
  cbn in Hopen, Hplan. subst closed fp.
  unfold s3_service.upload_to_s3, s3_service.get_s3_client.
  rewrite Ha, Hs, Hb. cbn [negb orb].
  py_plan; tidy_lists; cbn [drop]; eexists _, _; repeat split.
Qed.

(** X20 -- a closed file.  Given a closed file, [upload_to_s3] creates
    the client, fails at [file.seek(0)] with [ValueError], reports it in
    the log as a configuration error, raises it, and uploads nothing. *)
Theorem closed_file_is_logged_as_configuration_error
  environ file filename folder w :
  s3_configured environ ->
  no_faults w ->
  fclosed file = true ->
  exists w',
    s3_service.upload_to_s3 environ file filename folder w =
    (Raise (mkExn ValueError "seek of closed file"), w') /\
    s3_objects w' = s3_objects w /\
    logs w' =
    logs w ++ [(ERROR, "Configuration error: " +:+ "seek of closed file")] /\
    trace w' =
    trace w ++
    [EvS3Client (s3_service.AWS_ACCESS_KEY_ID environ)
       (s3_service.AWS_SECRET_ACCESS_KEY environ)
       (s3_service.AWS_REGION environ)].
Proof.
  intros (Ha & Hs & Hb) Hn Hclosed.
  destruct w as [vs oc ocu clk tk fp tr s3 lg tb], file as [data pos closed].
  unfold no_faults in Hn. cbn in Hn, Hclosed. subst closed.
  unfold s3_service.upload_to_s3, s3_service.get_s3_client.
  rewrite Ha, Hs, Hb. cbn [negb orb].
  py_run Hn. eexists. repeat split.
Qed.

(** X23 -- an S3 error is logged by its code.  When [upload_fileobj]
    raises a [ClientError], [upload_to_s3] raises it again after one
    error line made of the code and the message of the error's response,
    with [Unknown] standing in for a missing code and the text of the
    exception for a missing message; the text of the exception is
    otherwise not logged. *)
Theorem client_error_is_logged_by_code environ file filename folder w e :
  s3_configured environ ->
  fclosed file = false ->
  exn_class e = ClientError ->
  fault_plan w = fails_on is_upload e ->
  exists w',
    s3_service.upload_to_s3 environ file filename folder w = (Raise e, w') /\
    s3_objects w' = s3_objects w /\
    logs w' =
    logs w ++
    [(ERROR,
      "S3 ClientError during upload: " +:+
      get_or (get_or (exn_response e) "Error" []) "Code" "Unknown" +:+
      " - " +:+
      get_or (get_or (exn_response e) "Error" []) "Message" (exn_msg e))].
Proof.
  intros (Ha & Hs & Hb) Hopen Hcls Hplan.
  destruct w as [vs oc ocu clk tk fp tr s3 lg tb], file as [data pos closed],
    e as [c msg resp].
  cbn in Hopen, Hplan, Hcls. subst closed fp c.
  unfold s3_service.upload_to_s3, s3_service.get_s3_client.
  rewrite Ha, Hs, Hb. cbn [negb orb].
  py_unfold. cbv beta iota delta [fails_on is_upload].
  py_classify. py_unfold. cbv beta iota delta [exn_response exn_msg].
  tidy_lists. eexists. repeat split.
Qed.

(** ** Importing backend/app/main.py *)

Ltac main_unfold :=
  cbv beta iota delta
    [main.import_module main.open_rb main.file_exit liftP print2 app_get
     new_FastAPI stdout open_files world app_title app_description app_version
     app_routes s3_service.upload_to_s3 s3_service.get_s3_client];
  py_unfold;
  cbv beta iota delta [stdout open_files world].

(** X21 -- importing the application needs the file and the settings.
    When [test_video.mp4] is not in the working directory, or one of the
    three object-store settings is unset, importing the module raises:
    no application object results, no driver call was made, nothing was
    printed and no file is left open. *)
Theorem import_needs_file_and_settings environ fs p :
  fs "test_video.mp4" = None \/ s3_setting_unset environ ->
  exists e p',
    main.import_module environ fs p = (Raise e, p') /\
    trace (world p') = trace (world p) /\
    s3_objects (world p') = s3_objects (world p) /\
    stdout p' = stdout p /\
    open_files p' = open_files p.
Proof.
  intros Hcause.
  destruct p as [out nf [vs oc ocu clk tk fp tr s3 lg tb]].
  destruct (fs "test_video.mp4") as [data|] eqn:Hfile.
  - destruct Hcause as [Hnone|Hunset]; [discriminate Hnone|].
    unfold s3_setting_unset in Hunset.
    rewrite !elem_of_cons, elem_of_nil in Hunset.
    unfold main.import_module, main.open_rb. rewrite Hfile.
    unfold s3_service.upload_to_s3, s3_service.get_s3_client.
    destruct Hunset as [H|[H|[H|[]]]]; rewrite <- H; cbn [truthy];
      repeat match goal with
             | |- context [truthy ?o] => destruct (truthy o)
             end;
      cbn [negb orb]; main_unfold; py_classify; main_unfold;
      eexists _, _; repeat split.
  - unfold main.import_module, main.open_rb. rewrite Hfile.
    main_unfold. eexists _, _; repeat split.
Qed.

(** X22 -- importing the application uploads, then serves health.  With
    the settings present, the file in place and an object store that
    answers, importing the module stores the whole file under the key
    [test_video.mp4], prints that key, closes the file and yields an
    application whose routes are the four FastAPI installs itself
    ([/openapi.json], [/docs], [/docs/oauth2-redirect], [/redoc])
    followed by [/health]; the one route the module registered is
    [GET /health], answering [{"status": "ok"}]. *)
Theorem import_uploads_then_serves_health environ fs p data :
  s3_configured environ ->
  no_faults (world p) ->
  fs "test_video.mp4" = Some data ->
  exists app p',
    main.import_module environ fs p = (Ok app, p') /\
    s3_objects (world p') = ("test_video.mp4", data) :: s3_objects (world p) /\
    stdout p' = stdout p ++ ["uploaded to s3 test_video.mp4"] /\
    open_files p' = open_files p /\
    route_path <$> app_routes app =
    ["/openapi.json"; "/docs"; "/docs/oauth2-redirect"; "/redoc"; "/health"]
    /\ registered app = [("GET", "/health", [("status", VStr "ok")])].
Proof.
  intros (Ha & Hs & Hb) Hn Hfile.
  destruct p as [out nf [vs oc ocu clk tk fp tr s3 lg tb]].
  unfold no_faults in Hn. cbn in Hn.
  unfold main.import_module, main.open_rb. rewrite Hfile.
  unfold s3_service.upload_to_s3, s3_service.get_s3_client.
  rewrite Ha, Hs, Hb. cbn [negb orb].
  main_unfold. rewrite ?Hn. main_unfold. rewrite ?Hn. main_unfold.
  eexists _, _; repeat split.
Qed.


Lemma folder_slashes_do_not_matter_witness :
  (forall t', "up" <> String slash t') /\
  (forall t', "up" <> t' +:+ String slash EmptyString) /\
  slashes 2 +:+ "up" +:+ slashes 1 <> EmptyString /\
  s3_service.object_key "a.mp4" (Some "//up/") = "up/a.mp4".
Proof.
  assert (Hh : forall t', "up" <> String slash t') by (intros t'; discriminate).
  assert (Ht : forall t', "up" <> t' +:+ String slash EmptyString)
    by (intros [|a [|b [|c t']]] H; cbv in H; congruence).
  assert (Hne : slashes 2 +:+ "up" +:+ slashes 1 <> EmptyString)
    by discriminate.
  exact (conj Hh (conj Ht (conj Hne
    (folder_slashes_do_not_matter "a.mp4" "up" 2 1 Hh Ht Hne)))).
Defined.

Lemma slash_only_folder_gives_leading_slash_witness :
  (0 < 2)%nat /\
  s3_service.object_key "a.mp4" (Some "//") = "/a.mp4".
Proof.
  assert (Hn : (0 < 2)%nat) by lia.
  exact (conj Hn (slash_only_folder_gives_leading_slash "a.mp4" 2 Hn)).
Defined.

Lemma upload_failure_propagates_witness :
  s3_configured example_environ /\
  fclosed example_file = false /\
  fault_plan (quiet_world [] (fails_on is_upload
                                (mkExn ClientError "AccessDenied"))) =
    fails_on is_upload (mkExn ClientError "AccessDenied") /\
  exists w',
    s3_service.upload_to_s3 example_environ example_file "a.mp4" None
      (quiet_world [] (fails_on is_upload (mkExn ClientError "AccessDenied")))
    = (Raise (mkExn ClientError "AccessDenied"), w') /\
    s3_objects w' = [].
Proof.
  assert (Hc : s3_configured example_environ) by (repeat split).
  assert (Ho : fclosed example_file = false) by reflexivity.
  destruct (upload_failure_propagates example_environ example_file "a.mp4"
              None
              (quiet_world [] (fails_on is_upload
                                 (mkExn ClientError "AccessDenied")))
              (mkExn ClientError "AccessDenied") Hc Ho eq_refl)
    as (w' & msg & Hrun & Hobj & _).
  repeat (split; [assumption || reflexivity|]).
  exists w'. split; [exact Hrun | exact Hobj].
Defined.

Lemma closed_file_is_logged_as_configuration_error_witness :
  s3_configured example_environ /\
  no_faults (quiet_world [] no_plan) /\
  fclosed (mkFile [] 0 true) = true /\
  exists w',
    s3_service.upload_to_s3 example_environ (mkFile [] 0 true) "a.mp4" None
      (quiet_world [] no_plan) =
    (Raise (mkExn ValueError "seek of closed file"), w') /\
    s3_objects w' = [].
Proof.
  assert (Hc : s3_configured example_environ) by (repeat split).
  assert (Hn : no_faults (quiet_world [] no_plan))
    by (intros n ev; reflexivity).
  assert (Ho : fclosed (mkFile [] 0 true) = true) by reflexivity.
  destruct (closed_file_is_logged_as_configuration_error example_environ
              (mkFile [] 0 true) "a.mp4" None _ Hc Hn Ho)
    as (w' & Hrun & Hobj & _).
  repeat (split; [assumption|]).
  exists w'. split; [exact Hrun | exact Hobj].
Defined.

Lemma client_error_is_logged_by_code_witness :
  s3_configured example_environ /\
  fclosed example_file = false /\
  exn_class access_denied = ClientError /\
  fault_plan (quiet_world [] (fails_on is_upload access_denied)) =
    fails_on is_upload access_denied /\
  exists w',
    s3_service.upload_to_s3 example_environ example_file "a.mp4" None
      (quiet_world [] (fails_on is_upload access_denied))
    = (Raise access_denied, w') /\
    logs w' =
    [(ERROR, "S3 ClientError during upload: AccessDenied - Access Denied")].
Proof.
  assert (Hc : s3_configured example_environ) by (repeat split).
  assert (Ho : fclosed example_file = false) by reflexivity.
  assert (Hcls : exn_class access_denied = ClientError) by reflexivity.
  destruct (client_error_is_logged_by_code example_environ example_file
              "a.mp4" None
              (quiet_world [] (fails_on is_upload access_denied))
              access_denied Hc Ho Hcls eq_refl)
    as (w' & Hrun & _ & Hlog).
  repeat (split; [assumption || reflexivity|]).
  exists w'. split; [exact Hrun | exact Hlog].
Defined.

Lemma import_needs_file_and_settings_witness :
  (empty_fs "test_video.mp4" = None \/ s3_setting_unset example_environ) /\
  exists e p',
    main.import_module example_environ empty_fs
      (fresh_process (quiet_world [] no_plan)) = (Raise e, p') /\
    trace (world p') = [].
Proof.
  assert (H : empty_fs "test_video.mp4" = None \/
              s3_setting_unset example_environ) by (left; reflexivity).
  split; [exact H|].
  destruct (import_needs_file_and_settings example_environ empty_fs
              (fresh_process (quiet_world [] no_plan)) H)
    as (e & p' & Hrun & Ht & _).
  exists e, p'. split; [exact Hrun | exact Ht].
Defined.

Lemma import_uploads_then_serves_health_witness :
  s3_configured example_environ /\
  no_faults (world (fresh_process (quiet_world [] no_plan))) /\
  example_fs "test_video.mp4" = Some [Byte.x00; Byte.x01] /\
  exists app p',
    main.import_module example_environ example_fs
      (fresh_process (quiet_world [] no_plan)) = (Ok app, p') /\
    s3_objects (world p') = [("test_video.mp4", [Byte.x00; Byte.x01])] /\
    stdout p' = ["uploaded to s3 test_video.mp4"] /\
    route_path <$> app_routes app =
    ["/openapi.json"; "/docs"; "/docs/oauth2-redirect"; "/redoc"; "/health"]
    /\ registered app = [("GET", "/health", [("status", VStr "ok")])].
Proof.
  assert (Hc : s3_configured example_environ) by (repeat split).
  assert (Hn : no_faults (world (fresh_process (quiet_world [] no_plan))))
    by (intros n ev; reflexivity).
  assert (Hf : example_fs "test_video.mp4" = Some [Byte.x00; Byte.x01])
    by reflexivity.
  repeat (split; [assumption|]).
  destruct (import_uploads_then_serves_health example_environ example_fs
              (fresh_process (quiet_world [] no_plan)) _ Hc Hn Hf)
    as (app & p' & Hrun & Hobj & Hout & _ & Hpaths & Hreg).
  exists app, p'. split; [exact Hrun|]. split; [exact Hobj|].
  split; [exact Hout|]. split; [exact Hpaths | exact Hreg].
Defined.
